(** * pebble/process/task.py: the task lifecycle of Pebble's process decorator

    A shallow embedding of [pebble/process/task.py]: the factory [task], the
    worker entry point [task_worker], the lifecycle manager [task_manager],
    [ProcessTask] and [TaskDecoratorWrapper], followed by the properties of
    the specification that are settled on them.

    Python code is embedded in a small state-and-exception monad [Py]: a
    computation threads a state, and ends with a value, with a raised
    exception, or never ends (a blocking call that is never served). *)

From Stdlib Require Import QArith.
From stdpp Require Import base option list strings gmap.

Local Open Scope string_scope.
Local Open Scope list_scope.
Set Warnings "-register-all".
Set Default Proof Using "Type".

(** ** Python values *)

(** The classes the handlers of this module tell apart.  A kind stands for
    the class and its subclasses; [KBaseException] is a system-exiting
    exception (SystemExit, KeyboardInterrupt, GeneratorExit), which derives
    from BaseException but not from Exception; [KException] is any other
    subclass of Exception. *)
Inductive exn_kind :=
  | KIOError
  | KOSError
  | KEOFError
  | KPicklingError
  | KEmpty
  | KException
  | KBaseException.

(** Python objects.  [PFunction name] is a function with no attribute
    of its own (an empty [__dict__]) and [PMethod name self] a method
    bound to [self]; [PWith f dict] is the function or method [f] with the
    attributes [dict], that is, what [f.__dict__] gives (for a bound
    method, the [__dict__] of what it is bound to call); a dictionary
    holds a key once.  [PCount ref] is an [itertools.count] object, known
    by its place among the count objects of the interpreter.  [PObject] is
    an object of a class with none of the special methods this module
    relies on (it cannot be called, iterated or compared). *)
Inductive pyval :=
  | PNone
  | PBool (b : bool)
  | PNum (q : Q)
  | PStr (s : string)
  | PFunction (name : string)
  | PMethod (name : string) (self : pyval)
  | PList (xs : list pyval)
  | PDict (kv : list (string * pyval))
  | PExc (e : exn)
  | PObject (cls : string) (truth : bool)
  | PCount (ref : nat)
  | PWith (f : pyval) (dict : list (string * pyval))
with exn :=
  | Exn (kind : exn_kind) (cls : string) (args : list pyval)
        (truth : bool) (traceback : option string).

Definition exn_kind_of (e : exn) : exn_kind :=
  match e with Exn k _ _ _ _ => k end.
Definition exn_cls (e : exn) : string :=
  match e with Exn _ c _ _ _ => c end.
Definition exn_args (e : exn) : list pyval :=
  match e with Exn _ _ a _ _ => a end.
Definition exn_truth (e : exn) : bool :=
  match e with Exn _ _ _ t _ => t end.
Definition exn_traceback (e : exn) : option string :=
  match e with Exn _ _ _ _ tb => tb end.

(** [e.traceback = s] *)
Definition set_traceback (e : exn) (s : string) : exn :=
  match e with Exn k c a t _ => Exn k c a t (Some s) end.

(** An exception raised by the interpreter or by this package: never
    falsy, no traceback attribute yet. *)
Definition new_exn (k : exn_kind) (cls : string) (args : list pyval) : exn :=
  Exn k cls args true None.

Definition TypeError (msg : string) : exn := new_exn KException "TypeError" [PStr msg].
Definition ValueError (msg : string) : exn := new_exn KException "ValueError" [PStr msg].
Definition SystemExit (code : Q) : exn := new_exn KBaseException "SystemExit" [PNum code].
Definition Empty : exn := new_exn KEmpty "Empty" [].
Definition TimeoutError (msg : string) (timeout : pyval) : exn :=
  new_exn KException "TimeoutError" [PStr msg; timeout].
Definition TaskCancelled (msg : string) : exn :=
  new_exn KException "TaskCancelled" [PStr msg].

(** [isinstance(e, Exception)] *)
Definition is_Exception (e : exn) : bool :=
  match exn_kind_of e with KBaseException => false | _ => true end.
(** [isinstance(e, (IOError, OSError))] *)
Definition is_IOError_OSError (e : exn) : bool :=
  match exn_kind_of e with KIOError | KOSError => true | _ => false end.
(** [isinstance(e, (IOError, OSError, EOFError))] *)
Definition is_IOError_OSError_EOFError (e : exn) : bool :=
  match exn_kind_of e with KIOError | KOSError | KEOFError => true | _ => false end.
(** [isinstance(e, PicklingError)] *)
Definition is_PicklingError (e : exn) : bool :=
  match exn_kind_of e with KPicklingError => true | _ => false end.
(** [isinstance(e, Empty)] *)
Definition is_Empty (e : exn) : bool :=
  match exn_kind_of e with KEmpty => true | _ => false end.

Definition Qlt_bool (a b : Q) : bool := negb (Qle_bool b a).

(** Truth value of an object, as [and], [or] and [if] test it. *)
Definition py_truth (v : pyval) : bool :=
  match v with
  | PNone => false
  | PBool b => b
  | PNum q => negb (Qeq_bool q 0)
  | PStr s => negb (String.eqb s "")
  | PFunction _ => true
  | PMethod _ _ => true
  | PList xs => match xs with [] => false | _ => true end
  | PDict kv => match kv with [] => false | _ => true end
  | PExc e => exn_truth e
  | PObject _ t => t
  | PCount _ => true
  | PWith _ _ => true
  end.

(** The function or method itself, without its attributes. *)
Fixpoint strip (v : pyval) : pyval :=
  match v with
  | PWith f _ => strip f
  | _ => v
  end.

(** [getattr(v, '__dict__', {})] of a function or method. *)
Definition function_dict (v : pyval) : list (string * pyval) :=
  match v with
  | PWith _ dict => dict
  | _ => []
  end.

(** [d.get(key)] *)
Fixpoint dict_get (key : string) (d : list (string * pyval)) : option pyval :=
  match d with
  | [] => None
  | (k, v) :: d' => if String.eqb k key then Some v else dict_get key d'
  end.

(** [a and b], [a or b]: the operand that decides is the value. *)
Definition py_and (a b : pyval) : pyval := if py_truth a then b else a.
Definition py_or (a b : pyval) : pyval := if py_truth a then a else b.

(** [v is not None] *)
Definition is_not_None (v : pyval) : bool :=
  match v with PNone => false | _ => true end.

(** A number of seconds, for a value used as a duration. *)
Definition py_seconds (v : pyval) : option Q :=
  match v with
  | PNum q => Some q
  | PBool b => Some (if b then 1 else 0)%Q
  | _ => None
  end.

(** ** The monad of Python computations *)

Inductive res (A : Type) :=
  | Val (a : A)
  | Exc (e : exn)
  | Stuck.
Arguments Val {A} a.
Arguments Exc {A} e.
Arguments Stuck {A}.

Definition Py (S A : Type) : Type := S -> res A * S.

Section PyMonad.
Context {S : Type}.

Definition ret {A} (a : A) : Py S A := fun s => (Val a, s).

Definition bind {A B} (m : Py S A) (k : A -> Py S B) : Py S B :=
  fun s =>
    match m s with
    | (Val a, s') => k a s'
    | (Exc e, s') => (Exc e, s')
    | (Stuck, s') => (Stuck, s')
    end.

Definition raise {A} (e : exn) : Py S A := fun s => (Exc e, s).
Definition stuck {A} : Py S A := fun s => (Stuck, s).
Definition get_state : Py S S := fun s => (Val s, s).
Definition modify (f : S -> S) : Py S unit := fun s => (Val tt, f s).
Definition lift_res {A} (r : res A) : Py S A := fun s => (r, s).

(** The first clause whose class test accepts the exception. *)
Fixpoint find_handler {A} (hs : list ((exn -> bool) * (exn -> Py S A)))
    (e : exn) : option (Py S A) :=
  match hs with
  | [] => None
  | (test, h) :: hs' => if test e then Some (h e) else find_handler hs' e
  end.

(** [try: body  except C1 as e: h1  except C2 as e: h2 ...] *)
Definition try_except {A} (body : Py S A)
    (hs : list ((exn -> bool) * (exn -> Py S A))) : Py S A :=
  fun s =>
    match body s with
    | (Exc e, s') =>
        match find_handler hs e with
        | Some h => h s'
        | None => (Exc e, s')
        end
    | r => r
    end.

(** [try: body  finally: fin]: [fin] runs however [body] ends; what
    [body] raised is raised again after it unless [fin] raises itself. *)
Definition try_finally {A} (body : Py S A) (fin : Py S unit) : Py S A :=
  fun s =>
    match body s with
    | (Val a, s') =>
        match fin s' with
        | (Val _, s'') => (Val a, s'')
        | (Exc e, s'') => (Exc e, s'')
        | (Stuck, s'') => (Stuck, s'')
        end
    | (Exc e, s') =>
        match fin s' with
        | (Val _, s'') => (Exc e, s'')
        | (Exc e', s'') => (Exc e', s'')
        | (Stuck, s'') => (Stuck, s'')
        end
    | (Stuck, s') => (Stuck, s')
    end.
End PyMonad.

Notation "'do' x <- m ; k" := (bind m (fun x => k))
  (at level 10, x name, m at level 100, k at level 200).
Notation "'run' m ; k" := (bind m (fun _ => k))
  (at level 10, m at level 100, k at level 200).

(** [sys.exit(code)] raises SystemExit. *)
Definition sys_exit {S A} (code : Q) : Py S A := raise (SystemExit code).


(** ** Tasks *)

(** [ProcessTask(Task)].  The base class [Task] lives in [pebble.pebble];
    this module reads and writes the attributes below on it. *)
Module ProcessTask.
(** Modelled from the spec: the attributes of [Task] (pebble.pebble is
    not under src): "id (unique, monotonic), function reference,
    positional/keyword arguments, timeout duration (0 = unbounded),
    optional callback, cancellation flag, terminal outcome".  [number] is
    the id given as [task_nr]; [outcome] is [None] until the task is
    terminal.  [_queue] is the attribute [ProcessTask.__init__] adds: the
    handle of the task's own channel. *)
Record t := Build {
  number : nat;
  _function : pyval;
  _args : pyval;
  _kwargs : pyval;
  _callback : pyval;
  timeout : pyval;
  identifier : pyval;
  _cancelled : bool;
  outcome : option pyval;
  _queue : nat
}.

(** [ProcessTask.__init__]: the initializer of [Task] on the arguments
    it is given (a new task is not cancelled and has no outcome), then
    [self._queue = queue]. *)
Definition __init__ (task_nr : nat) (function args kwargs callback
    timeout identifier : pyval) (queue : nat) : t :=
  {| number := task_nr; _function := function; _args := args;
     _kwargs := kwargs; _callback := callback; timeout := timeout;
     identifier := identifier; _cancelled := false; outcome := None;
     _queue := queue |}.

(** Modelled from the spec: [Task._set] (pebble.pebble is not under src):
    "sets outcome exactly once, transitions to terminal, releases any
    blocked caller".  A task that already has its outcome keeps it. *)
Definition _set (results : pyval) (task : t) : t :=
  match outcome task with
  | Some _ => task
  | None =>
      {| number := number task; _function := _function task;
         _args := _args task; _kwargs := _kwargs task;
         _callback := _callback task; timeout := timeout task;
         identifier := identifier task; _cancelled := _cancelled task;
         outcome := Some results; _queue := _queue task |}
  end.

(** [self._cancelled = True] *)
Definition set_cancelled (task : t) : t :=
  {| number := number task; _function := _function task;
     _args := _args task; _kwargs := _kwargs task;
     _callback := _callback task; timeout := timeout task;
     identifier := identifier task; _cancelled := true;
     outcome := outcome task; _queue := _queue task |}.
End ProcessTask.

(** ** The collaborators outside this module *)

(** How a call of a Python function ends: it returns a value or raises an
    exception after some running time (in seconds), or it never ends. *)
Inductive call_result :=
  | Returns (v : pyval) (after : Q)
  | Raises (e : exn) (after : Q)
  | Hangs.

(** What this module takes from its surroundings.
    - [os_name]: [os.name];
    - [functions]: what calling the function of that name does, on
      positional and keyword arguments;
    - [callbacks]: what calling the function of that name on a task does:
      how the call ends, and the task as the call leaves it (the callback
      is given the task object itself and may write its attributes);
    - [dump_function]: [pebble.process.generic.dump_function], the
      marshaling shim (not under src);
    - [put_raises]: whether [SimpleQueue.put] of an item raises (an item
      that cannot be pickled, a broken pipe), [None] when the item is
      written;
    - [stack_text]: the frames and the final line that
      [traceback.format_exc] prints for the exception being handled. *)
Record world := World {
  os_name : string;
  functions : string -> list pyval -> list (string * pyval) -> call_result;
  callbacks : string -> ProcessTask.t -> res unit * ProcessTask.t;
  dump_function : pyval -> pyval -> pyval * pyval;
  put_raises : pyval -> option exn;
  stack_text : exn -> string
}.

Definition newline : string := String (Ascii.ascii_of_nat 10) EmptyString.

(** [traceback.format_exc()], while [e] is being handled: the header
    line, then the frames and the line of the exception. *)
Definition format_exc (w : world) (e : exn) : string :=
  "Traceback (most recent call last):" +:+ newline +:+ stack_text w e.

(** Unpacking positional arguments: the items of an iterable. *)
Definition py_star (v : pyval) : option (list pyval) :=
  match v with
  | PList xs => Some xs
  | PDict kv => Some (map (fun p => PStr (fst p)) kv)
  | PStr s => Some (map (fun c => PStr (String c EmptyString)) (String.list_ascii_of_string s))
  | _ => None
  end.

(** Unpacking keyword arguments: the items of a mapping. *)
Definition py_starstar (v : pyval) : option (list (string * pyval)) :=
  match v with
  | PDict kv => Some kv
  | _ => None
  end.

(** The call of [function] on the unpacked [args] and [kwargs].
    Unpacking a count object never ends. *)
Definition py_call (w : world) (function args kwargs : pyval) : call_result :=
  match args with
  | PCount _ => Hangs
  | _ =>
      match py_star args, py_starstar kwargs with
      | Some xs, Some kv =>
          match strip function with
          | PFunction name => functions w name xs kv
          | PMethod name self => functions w name (self :: xs) kv
          | _ => Raises (TypeError "object is not callable") 0
          end
      | None, _ => Raises (TypeError "argument after * must be an iterable") 0
      | _, None => Raises (TypeError "argument after ** must be a mapping") 0
      end
  end.

Definition call_res (c : call_result) : res pyval :=
  match c with
  | Returns v _ => Val v
  | Raises e _ => Exc e
  | Hangs => Stuck
  end.

(** The time at which the call is over. *)
Definition call_end (c : call_result) : option Q :=
  match c with
  | Returns _ d => Some d
  | Raises _ d => Some d
  | Hangs => None
  end.

(** [callback(task)]: how the call ends, and the task as it leaves it.
    The callback is handed the task object itself, so what it writes on
    it stays. *)
Definition call_callback (w : world) (callback : pyval) (task : ProcessTask.t)
    : res unit * ProcessTask.t :=
  match strip callback with
  | PFunction name => callbacks w name task
  | PMethod name _ => callbacks w name task
  | _ => (Exc (TypeError "object is not callable"), task)
  end.

(** ** The channel *)

(** Modelled from the spec: the channel [SimpleQueue]
    (pebble.process.generic is not under src): "a transportable channel
    with put(item) / get(timeout) -> item | empty-signal".  A channel is
    the items put on it, each with the time of its put, counted in seconds
    from the start of the manager's wait. *)
Definition channel := list (Q * pyval).

(** The item put first; of two puts at the same time, the one listed
    first. *)
Fixpoint earliest (c : channel) : option (Q * pyval) :=
  match c with
  | [] => None
  | (a, x) :: c' =>
      match earliest c' with
      | Some (b, y) => if Qle_bool a b then Some (a, x) else Some (b, y)
      | None => Some (a, x)
      end
  end.

(** Modelled from the spec: [queue.get(timeout)]: the first item when it
    is there within [timeout] seconds, the empty-signal [Empty] when the
    wait elapses; without a timeout ([None]) the wait lasts until an item
    is there. *)
Definition queue_get (timeout : pyval) (c : channel) : res pyval :=
  match timeout with
  | PNone =>
      match earliest c with
      | Some (_, x) => Val x
      | None => Stuck
      end
  | _ =>
      match py_seconds timeout with
      | Some t =>
          match earliest c with
          | Some (a, x) => if Qle_bool a t then Val x else Exc Empty
          | None => Exc Empty
          end
      | None => Exc (TypeError "timeout must be a number")
      end
  end.

(** ** task_worker *)

(** The locals [error] and [results] of [task_worker], and the calls of
    [queue.put] it has made: the item, and what the call raised. *)
Record worker_state := WorkerState {
  error : pyval;
  results : pyval;
  puts : list (pyval * option exn)
}.

Definition set_error (v : pyval) (s : worker_state) : worker_state :=
  {| error := v; results := results s; puts := puts s |}.
Definition set_results (v : pyval) (s : worker_state) : worker_state :=
  {| error := error s; results := v; puts := puts s |}.

(** [error.traceback = text] *)
Definition set_error_traceback (text : string) (s : worker_state) : worker_state :=
  match error s with
  | PExc e => set_error (PExc (set_traceback e text)) s
  | _ => s
  end.

(** [queue.put(item)] in the worker. *)
Definition queue_put (w : world) (item : pyval) : Py worker_state unit :=
  fun s =>
    let s' := {| error := error s; results := results s;
                 puts := puts s ++ [(item, put_raises w item)] |} in
    match put_raises w item with
    | None => (Val tt, s')
    | Some e => (Exc e, s')
    end.

Definition task_worker (w : world) (function args kwargs : pyval)
    : Py worker_state unit :=
  run modify (set_error PNone);
  run modify (set_results PNone);
  try_finally
    (try_except
       (do r <- lift_res (call_res (py_call w function args kwargs));
        modify (set_results r))
       [ (is_IOError_OSError, fun _ => sys_exit 1);
         (is_Exception, fun err =>
            run modify (set_error (PExc err));
            modify (set_error_traceback (format_exc w err))) ])
    (try_except
       (do s <- get_state;
        queue_put w
          (py_or (py_and (PBool (is_not_None (error s))) (error s))
                 (results s)))
       [ (is_IOError_OSError_EOFError, fun _ => sys_exit 1);
         (is_PicklingError, fun err =>
            run modify (set_error (PExc err));
            run modify (set_error_traceback (format_exc w err));
            do s <- get_state;
            queue_put w (error s)) ]).

Definition worker_init : worker_state :=
  {| error := PNone; results := PNone; puts := [] |}.

(** One run of the worker process. *)
Definition run_worker (w : world) (function args kwargs : pyval)
    : res unit * worker_state :=
  task_worker w function args kwargs worker_init.

(** The items of the calls of [queue.put], in order. *)
Definition put_calls (r : res unit * worker_state) : list pyval :=
  map fst (puts (snd r)).

(** The items that reached the channel: the puts that did not raise. *)
Definition written (r : res unit * worker_state) : list pyval :=
  omap (fun p => match snd p with None => Some (fst p) | Some _ => None end)
       (puts (snd r)).

(** Modelled from the spec: the exit status of the isolation unit (the
    decorator [concurrent] of pebble.process.concurrent is not under src):
    zero when the entry point returns, the code given to [sys.exit], and 1
    for any other exception that leaves the entry point; a worker that
    never ends has no status. *)
Definition exit_status (r : res unit) : option Q :=
  match r with
  | Val _ => Some 0%Q
  | Exc (Exn KBaseException "SystemExit" [PNum code] _ _) => Some code
  | Exc _ => Some 1%Q
  | Stuck => None
  end.

(** ** task_manager *)

(** What the manager does that others can see, in order. *)
Inductive event :=
  | EvDump (function args : pyval)
  | EvSpawn (queue : nat) (function args kwargs : pyval)
  | EvGet (queue : nat) (timeout : pyval)
  | EvSet (results : pyval)
  | EvTerminate
  | EvJoin
  | EvCallback (task : ProcessTask.t)
  | EvPrintExc (e : exn).

(** The state of a run of the manager.
    - [the_task]: the task object as the statements of the manager have
      made it;
    - [trace]: what the manager has done;
    - [handed_back]: once the callback has been called on the task
      object, the task as the callback left it.  The manager reads and
      writes nothing of the task after that call, so from then on this is
      the state of the task object. *)
Record manager_state := ManagerState {
  the_task : ProcessTask.t;
  trace : list event;
  handed_back : option ProcessTask.t
}.

(** The task object at the end of a run. *)
Definition task_at_end (s : manager_state) : ProcessTask.t :=
  match handed_back s with
  | Some t => t
  | None => the_task s
  end.

Definition emit (ev : event) : Py manager_state unit :=
  modify (fun s => {| the_task := the_task s; trace := trace s ++ [ev];
                      handed_back := handed_back s |}).

(** [task._set(results)] *)
Definition task_set (results : pyval) : Py manager_state unit :=
  run emit (EvSet results);
  modify (fun s => {| the_task := ProcessTask._set results (the_task s);
                      trace := trace s; handed_back := handed_back s |}).

(** [task._callback(task)]: the callback works on the task object. *)
Definition hand_to_callback (w : world) (callback : pyval)
    : Py manager_state unit :=
  fun s =>
    (fst (call_callback w callback (the_task s)),
     {| the_task := the_task s; trace := trace s;
        handed_back := Some (snd (call_callback w callback (the_task s))) |}).

(** [task.timeout > 0]: numbers compare with 0, other objects do not. *)
Definition py_gt_0 (v : pyval) : res pyval :=
  match v with
  | PNum q => Val (PBool (Qlt_bool 0 q))
  | PBool b => Val (PBool b)
  | _ => Exc (TypeError "'>' not supported")
  end.

(** What the worker process spawned on [function], [args] and [kwargs]
    puts on the channel: its items, at the time the call of [function] is
    over.  The time of a call in a worker is counted from the start of the
    manager's wait: what the start of the process and the transport of the
    item take is part of it. *)
Definition worker_puts (w : world) (function args kwargs : pyval) : channel :=
  match call_end (py_call w function args kwargs) with
  | Some d => map (fun x => (d, x)) (written (run_worker w function args kwargs))
  | None => []
  end.

(** [task_manager(task)], run on the task in the state; [others] are the
    puts of other parties on the task's channel (a cancellation). *)
Definition task_manager (w : world) (others : channel) : Py manager_state unit :=
  do s <- get_state;
  let task := the_task s in
  let args := ProcessTask._args task in
  let queue := ProcessTask._queue task in
  let function := ProcessTask._function task in
  do positive <- lift_res (py_gt_0 (ProcessTask.timeout task));
  let timeout := py_or (py_and positive (ProcessTask.timeout task)) PNone in
  do dumped <-
    (if String.eqb (os_name w) "nt"
     then run emit (EvDump function args);
          ret (dump_function w function args)
     else ret (function, args));
  let function := fst dumped in
  let args := snd dumped in
  run emit (EvSpawn queue function (ProcessTask._args task)
                    (ProcessTask._kwargs task));
  let process :=
    worker_puts w function (ProcessTask._args task) (ProcessTask._kwargs task) in
  run try_except
        (run emit (EvGet queue timeout);
         do results <- lift_res (queue_get timeout (others ++ process));
         task_set results)
        [ (is_Empty, fun _ =>
             task_set (PExc (TimeoutError "Task Timeout" timeout))) ];
  run emit EvTerminate;
  run emit EvJoin;
  if is_not_None (ProcessTask._callback task)
  then try_except
         (do s <- get_state;
          run emit (EvCallback (the_task s));
          hand_to_callback w (ProcessTask._callback task))
         [ (is_Exception, fun e => emit (EvPrintExc e)) ]
  else ret tt.

(** One run of the manager on [task]. *)
Definition run_manager (w : world) (others : channel) (task : ProcessTask.t)
    : res unit * manager_state :=
  task_manager w others {| the_task := task; trace := []; handed_back := None |}.

(** ** ProcessTask._cancel *)

(** [ProcessTask._cancel], called at time [now], on the task and its
    channel. *)
Definition _cancel (w : world) (now : Q) : Py (ProcessTask.t * channel) unit :=
  run modify (fun s => (ProcessTask.set_cancelled (fst s), snd s));
  let item := PExc (TaskCancelled "Task Cancelled") in
  match put_raises w item with
  | None => modify (fun s => (fst s, snd s ++ [(now, item)]))
  | Some e => raise e
  end.

(** ** The factory: TaskDecoratorWrapper and task *)

(** What the module and the interpreter hold across calls: the global
    [_task_counter], the count objects made by [count()] (each with the
    number [next] gives next; a count object is known by its place), the
    number of [SimpleQueue] objects made so far (the next handle), and the
    managers started, each on its own thread (the decorator [concurrent]
    of pebble.thread is not under src; a call of the decorated
    [task_manager] starts the thread and returns). *)
Record interpreter := Interpreter {
  _task_counter : nat;
  counts : list nat;
  queues : nat;
  threads : list ProcessTask.t
}.

(** [next(_task_counter)] *)
Definition next_task_counter : Py interpreter nat :=
  fun s => (Val (_task_counter s),
            {| _task_counter := S (_task_counter s); counts := counts s;
               queues := queues s; threads := threads s |}).

(** [count()]: a new count object, which starts from 0. *)
Definition count : Py interpreter pyval :=
  fun s => (Val (PCount (length (counts s))),
            {| _task_counter := _task_counter s; counts := counts s ++ [0];
               queues := queues s; threads := threads s |}).

(** [next(v)]: the number a count object is at, and the object moves on;
    the other objects are no iterators. *)
Definition next (v : pyval) : Py interpreter nat :=
  fun s =>
    match v with
    | PCount ref =>
        match counts s !! ref with
        | Some n =>
            (Val n, {| _task_counter := _task_counter s;
                       counts := <[ref := S n]> (counts s);
                       queues := queues s; threads := threads s |})
        | None => (Exc (TypeError "object is not an iterator"), s)
        end
    | _ => (Exc (TypeError "object is not an iterator"), s)
    end.

(** [SimpleQueue()] *)
Definition new_SimpleQueue : Py interpreter nat :=
  fun s => (Val (queues s),
            {| _task_counter := _task_counter s; counts := counts s;
               queues := S (queues s); threads := threads s |}).

(** [task_manager(task)], the decorated function: the manager starts. *)
Definition start_task_manager (task : ProcessTask.t) : Py interpreter unit :=
  modify (fun s => {| _task_counter := _task_counter s; counts := counts s;
                      queues := queues s; threads := threads s ++ [task] |}).

Module TaskDecoratorWrapper.
(** The attributes of a wrapper that this module sets and reads.  Each
    holds an object: [update_wrapper] may put any object there. *)
Record t := Build {
  _counter : pyval;
  _function : pyval;
  _ismethod : pyval;
  timeout : pyval;
  callback : pyval
}.

(** [self.__dict__], for the attributes above. *)
Definition __dict__ (self : t) : list (string * pyval) :=
  [("_counter", _counter self); ("_function", _function self);
   ("_ismethod", _ismethod self); ("timeout", timeout self);
   ("callback", callback self)].

(** The attribute [key] after [self.__dict__.update(d)]. *)
Definition updated (key : string) (d : list (string * pyval)) (old : pyval)
    : pyval :=
  match dict_get key d with
  | Some v => v
  | None => old
  end.

(** [functools.update_wrapper(self, function)]: it copies the name, the
    module and the documentation of [function], which this module never
    reads and which are not kept here, and updates [self.__dict__] with
    [function.__dict__]: an attribute of the function replaces the
    attribute of the same name of the wrapper. *)
Definition update_wrapper (self : t) (function : pyval) : t :=
  {| _counter := updated "_counter" (function_dict function) (_counter self);
     _function := updated "_function" (function_dict function) (_function self);
     _ismethod := updated "_ismethod" (function_dict function) (_ismethod self);
     timeout := updated "timeout" (function_dict function) (timeout self);
     callback := updated "callback" (function_dict function) (callback self) |}.

(** [TaskDecoratorWrapper.__init__]: the five attributes are set, with a
    new count object, and [update_wrapper(self, function)] comes last. *)
Definition __init__ (function timeout callback : pyval) : Py interpreter t :=
  do counter <- count;
  ret (update_wrapper
         {| _counter := counter; _function := function;
            _ismethod := PBool false; timeout := timeout;
            callback := callback |}
         function).

(** A computation of the interpreter, run from a method of the wrapper. *)
Definition on_interpreter {A} (m : Py interpreter A) : Py (t * interpreter) A :=
  fun s => let r := m (snd s) in (fst r, (fst s, snd r)).

Definition __call__ (args : list pyval) (kwargs : list (string * pyval))
    : Py (t * interpreter) ProcessTask.t :=
  do queue <- on_interpreter new_SimpleQueue;
  do s <- get_state;
  let self := fst s in
  do nr <- on_interpreter (next (_counter self));
  let task :=
    ProcessTask.__init__ nr (_function self) (PList args) (PDict kwargs)
      (callback self) (timeout self) PNone queue in
  run on_interpreter (start_task_manager task);
  ret task.
End TaskDecoratorWrapper.

(** What the descriptor gives: the wrapper itself, or the wrapper bound
    to an instance ([MethodType(self, instance)]). *)
Inductive descriptor :=
  | Itself
  | BoundTo (instance : pyval).

(** [TaskDecoratorWrapper.__get__(self, instance, owner)] *)
Definition __get__ (instance owner : pyval) : descriptor :=
  if is_not_None instance then BoundTo instance else Itself.

(** The call of what [__get__] gave: a bound method calls the wrapper
    with the instance before the positional arguments. *)
Definition call_descriptor (d : descriptor) (args : list pyval)
    (kwargs : list (string * pyval)) : Py (TaskDecoratorWrapper.t * interpreter) ProcessTask.t :=
  match d with
  | Itself => TaskDecoratorWrapper.__call__ args kwargs
  | BoundTo instance => TaskDecoratorWrapper.__call__ (instance :: args) kwargs
  end.

(** [MethodType(self, instance)] as an object: a method, which to call
    is to call the wrapper, and whose [__dict__] is that of the wrapper
    it is bound to call. *)
Definition bound_wrapper (self : TaskDecoratorWrapper.t) (instance : pyval)
    : pyval :=
  PWith (PMethod "TaskDecoratorWrapper.__call__" instance)
        (TaskDecoratorWrapper.__dict__ self).

(** What [task] returns: a [TaskDecoratorWrapper] around the function, a
    started task, or the closure [wrapper] with the [timeout] and
    [callback] it holds. *)
Inductive task_result :=
  | Decorated (wrapper : TaskDecoratorWrapper.t)
  | Started (task : ProcessTask.t)
  | Decorator (timeout callback : pyval).

(** [wrapper(function)], of the closure [Decorator timeout callback]. *)
Definition wrapper (timeout callback function : pyval)
    : Py interpreter TaskDecoratorWrapper.t :=
  TaskDecoratorWrapper.__init__ function timeout callback.

(** [isinstance(v, (FunctionType, MethodType))] *)
Definition is_function_or_method (v : pyval) : bool :=
  match strip v with
  | PFunction _ | PMethod _ _ => true
  | _ => false
  end.

(** [d.pop(key, default)]: the value and the dictionary without the key. *)
Definition dict_pop (key : string) (default : pyval) (d : gmap string pyval)
    : pyval * gmap string pyval :=
  (match d !! key with Some v => v | None => default end, delete key d).

Definition task (args : list pyval) (kwargs : gmap string pyval)
    : Py interpreter task_result :=
  if (0 <? length args)%nat && (size kwargs =? 0)%nat then
    match args !! 0%nat with
    | Some a0 =>
        if negb (is_function_or_method a0)
        then raise (ValueError "Decorated object must be function or method.")
        else do self <- TaskDecoratorWrapper.__init__ a0 (PNum 0) PNone;
             ret (Decorated self)
    | None => raise (new_exn KException "IndexError" [])
    end
  else if (0 <? size kwargs)%nat then
    let (timeout, kwargs) := dict_pop "timeout" (PNum 0) kwargs in
    let (callback, kwargs) := dict_pop "callback" PNone kwargs in
    let (target, kwargs) := dict_pop "target" PNone kwargs in
    let (args, kwargs) := dict_pop "args" (PList []) kwargs in
    let (kwargs, _) := dict_pop "kwargs" (PDict []) kwargs in
    if is_not_None target then
      do queue <- new_SimpleQueue;
      do nr <- next_task_counter;
      let task :=
        ProcessTask.__init__ nr target args kwargs callback timeout PNone queue in
      run start_task_manager task;
      ret (Started task)
    else ret (Decorator timeout callback)
  else raise (ValueError "Decorator accepts only keyword arguments.").

(** *** Programs that use the factory *)

(** A program is a sequence of calls; the wrapper objects it has made are
    kept in a list, and a wrapper is used through its index.  [OpTask] is
    a call of [task], [OpWrapper] a call of the closure [wrapper] that
    [task] returned, [OpCall] a call of a wrapper, and [OpRewrap i
    instance] is [task(w.__get__(instance))] for the wrapper [w] of index
    [i]: the decoration of what the descriptor gives for that instance. *)
Inductive op :=
  | OpTask (args : list pyval) (kwargs : gmap string pyval)
  | OpWrapper (timeout callback function : pyval)
  | OpCall (i : nat) (args : list pyval) (kwargs : list (string * pyval))
  | OpRewrap (i : nat) (instance : pyval).

Record program_state := ProgramState {
  interp : interpreter;
  wrappers : list TaskDecoratorWrapper.t
}.

(** A task, with the wrapper that made it or the mark of the
    keyword-configured form. *)
Inductive created :=
  | ByWrapper (i : nat) (task : ProcessTask.t)
  | ByTarget (task : ProcessTask.t).

(** A call of [task] in a program. *)
Definition step_task (args : list pyval) (kwargs : gmap string pyval)
    (s : program_state) : program_state * option created :=
  match task args kwargs (interp s) with
  | (Val (Decorated w), it) =>
      ({| interp := it; wrappers := wrappers s ++ [w] |}, None)
  | (Val (Started t), it) =>
      ({| interp := it; wrappers := wrappers s |}, Some (ByTarget t))
  | (_, it) => ({| interp := it; wrappers := wrappers s |}, None)
  end.

Definition step (o : op) (s : program_state) : program_state * option created :=
  match o with
  | OpTask args kwargs => step_task args kwargs s
  | OpWrapper timeout callback function =>
      match wrapper timeout callback function (interp s) with
      | (Val w, it) => ({| interp := it; wrappers := wrappers s ++ [w] |}, None)
      | (_, it) => ({| interp := it; wrappers := wrappers s |}, None)
      end
  | OpCall i args kwargs =>
      match wrappers s !! i with
      | Some self =>
          match TaskDecoratorWrapper.__call__ args kwargs (self, interp s) with
          | (Val t, (self', it)) =>
              ({| interp := it; wrappers := <[i := self']> (wrappers s) |},
               Some (ByWrapper i t))
          | (_, (self', it)) =>
              ({| interp := it; wrappers := <[i := self']> (wrappers s) |}, None)
          end
      | None => (s, None)
      end
  | OpRewrap i instance =>
      match wrappers s !! i with
      | Some self =>
          match __get__ instance PNone with
          | BoundTo instance => step_task [bound_wrapper self instance] ∅ s
          | Itself =>
              (* the wrapper itself, which is no function or method *)
              step_task [PObject "TaskDecoratorWrapper" true] ∅ s
          end
      | None => (s, None)
      end
  end.

Fixpoint exec (p : list op) (s : program_state) : list created :=
  match p with
  | [] => []
  | o :: p' =>
      let (s', c) := step o s in
      match c with
      | Some c => c :: exec p' s'
      | None => exec p' s'
      end
  end.

Definition start : program_state :=
  {| interp := {| _task_counter := 0; counts := []; queues := 0; threads := [] |};
     wrappers := [] |}.

(** The numbers of the tasks wrapper [i] made, in the order of its calls. *)
Definition numbers_of_wrapper (i : nat) (cs : list created) : list nat :=
  omap (fun c => match c with
                 | ByWrapper j t => if (i =? j)%nat then Some (ProcessTask.number t) else None
                 | ByTarget _ => None
                 end) cs.

(** The numbers of the tasks the keyword-configured form made. *)
Definition numbers_of_target (cs : list created) : list nat :=
  omap (fun c => match c with
                 | ByWrapper _ _ => None
                 | ByTarget t => Some (ProcessTask.number t)
                 end) cs.

(** ** What a run of the manager goes through *)

(** The value of the local [timeout] of [task_manager]. *)
Definition resolved_timeout (task : ProcessTask.t) : res pyval :=
  match py_gt_0 (ProcessTask.timeout task) with
  | Val positive => Val (py_or (py_and positive (ProcessTask.timeout task)) PNone)
  | Exc e => Exc e
  | Stuck => Stuck
  end.

(** The value of the local [function] when the worker is spawned. *)
Definition spawned_function (w : world) (task : ProcessTask.t) : pyval :=
  if String.eqb (os_name w) "nt"
  then fst (dump_function w (ProcessTask._function task) (ProcessTask._args task))
  else ProcessTask._function task.

(** The channel of the task during the wait. *)
Definition awaited_channel (w : world) (others : channel) (task : ProcessTask.t)
    : channel :=
  others ++ worker_puts w (spawned_function w task) (ProcessTask._args task)
                        (ProcessTask._kwargs task).

(** How [queue.get(timeout)] ends in the manager. *)
Definition awaited (w : world) (others : channel) (task : ProcessTask.t)
    : res pyval :=
  match resolved_timeout task with
  | Val timeout => queue_get timeout (awaited_channel w others task)
  | Exc e => Exc e
  | Stuck => Stuck
  end.

(** What the manager gives to [task._set]: the item received, or the
    TimeoutError of the elapsed wait; nothing when the wait does not end. *)
Definition finalization (w : world) (others : channel) (task : ProcessTask.t)
    : option pyval :=
  match resolved_timeout task with
  | Val timeout =>
      match queue_get timeout (awaited_channel w others task) with
      | Val item => Some item
      | Exc e =>
          if is_Empty e then Some (PExc (TimeoutError "Task Timeout" timeout))
          else None
      | Stuck => None
      end
  | _ => None
  end.

(** The trace up to the wait. *)
Definition prelude (w : world) (task : ProcessTask.t) (timeout : pyval)
    : list event :=
  (if String.eqb (os_name w) "nt"
   then [EvDump (ProcessTask._function task) (ProcessTask._args task)]
   else [])
  ++ [EvSpawn (ProcessTask._queue task) (spawned_function w task)
              (ProcessTask._args task) (ProcessTask._kwargs task);
      EvGet (ProcessTask._queue task) timeout].

(** The last step of the manager, on the finalized task. *)
Definition callback_step (w : world) (task : ProcessTask.t) (tr : list event)
    : res unit * manager_state :=
  if is_not_None (ProcessTask._callback task) then
    let left := Some (snd (call_callback w (ProcessTask._callback task) task)) in
    match fst (call_callback w (ProcessTask._callback task) task) with
    | Val _ =>
        (Val tt, {| the_task := task; trace := tr ++ [EvCallback task];
                    handed_back := left |})
    | Exc e =>
        if is_Exception e
        then (Val tt, {| the_task := task;
                         trace := tr ++ [EvCallback task; EvPrintExc e];
                         handed_back := left |})
        else (Exc e, {| the_task := task; trace := tr ++ [EvCallback task];
                        handed_back := left |})
    | Stuck =>
        (Stuck, {| the_task := task; trace := tr ++ [EvCallback task];
                   handed_back := left |})
    end
  else (Val tt, {| the_task := task; trace := tr; handed_back := None |}).

Definition is_EvCallback (ev : event) : bool :=
  match ev with EvCallback _ => true | _ => false end.

(** The number of calls of the callback in a trace. *)
Definition callback_calls (tr : list event) : nat :=
  length (List.filter is_EvCallback tr).

(** ** Example surroundings *)

Definition IOError_example : exn := new_exn KIOError "IOError" [PStr "disk"].
Definition KeyboardInterrupt : exn := new_exn KBaseException "KeyboardInterrupt" [].
Definition PicklingError_example : exn :=
  new_exn KPicklingError "PicklingError" [PStr "Can't pickle"].

(** An exception whose class gives it a false truth value
    ([__bool__], or [__len__] returning 0). *)
Definition Quiet : exn := Exn KException "Quiet" [] false None.

(** An exception that holds a function, which does not pickle. *)
Definition Unpicklable : exn := new_exn KException "Failure" [PFunction "handler"].

Definition plain_functions (name : string) (xs : list pyval)
    (kv : list (string * pyval)) : call_result :=
  if String.eqb name "read_config" then Raises IOError_example 1
  else if String.eqb name "parse" then Raises (ValueError "x") 2
  else if String.eqb name "quiet" then Raises Quiet 2
  else if String.eqb name "interrupted" then Raises KeyboardInterrupt 1
  else if String.eqb name "fail" then Raises Unpicklable 1
  else if String.eqb name "answer" then Returns (PNum 42) 3
  else if String.eqb name "slow_answer" then Returns (PNum 42) 1000000
  else if String.eqb name "sleep" then Returns PNone 5
  else Hangs.

(** The functions of the examples; [trampoline] calls the function it is
    given first on the other arguments. *)
Definition example_functions (name : string) (xs : list pyval)
    (kv : list (string * pyval)) : call_result :=
  if String.eqb name "trampoline" then
    match xs with
    | PFunction f :: rest => plain_functions f rest kv
    | _ => Raises (TypeError "trampoline() needs a function") 0
    end
  else plain_functions name xs kv.

(** The callback [cancel_and_fail] writes the task it is given: it sets
    its cancellation flag, and then raises. *)
Definition example_callbacks (name : string) (task : ProcessTask.t)
    : res unit * ProcessTask.t :=
  if String.eqb name "notify" then (Val tt, task)
  else if String.eqb name "broken" then (Exc (ValueError "callback"), task)
  else if String.eqb name "abort" then (Exc KeyboardInterrupt, task)
  else if String.eqb name "cancel_and_fail"
       then (Exc (ValueError "callback"), ProcessTask.set_cancelled task)
  else (Stuck, task).

(** A marshaling shim in the way of [dump_function]: the worker is to run
    a trampoline, on the function followed by the arguments. *)
Definition example_dump_function (function args : pyval) : pyval * pyval :=
  (PFunction "trampoline",
   PList (function :: match py_star args with Some xs => xs | None => [] end)).

(** Exceptions that hold a function do not pickle; the rest is written. *)
Definition example_put_raises (item : pyval) : option exn :=
  match item with
  | PExc (Exn KException _ (PFunction _ :: _) _ _) => Some PicklingError_example
  | _ => None
  end.

Definition example_world (os : string) : world :=
  {| os_name := os;
     functions := example_functions;
     callbacks := example_callbacks;
     dump_function := example_dump_function;
     put_raises := example_put_raises;
     stack_text := fun e => exn_cls e |}.

Definition posix_world : world := example_world "posix".
Definition nt_world : world := example_world "nt".

(** A fresh task on the function [name], with no argument. *)
Definition example_task (name : string) (callback timeout : pyval) : ProcessTask.t :=
  ProcessTask.__init__ 0 (PFunction name) (PList []) (PDict []) callback timeout PNone 0.

(** [key not in function.__dict__] *)
Definition has_no_attribute (key : string) (function : pyval) : bool :=
  match dict_get key (function_dict function) with
  | None => true
  | Some _ => false
  end.

(** The function has none of the attributes that a wrapper sets for
    itself. *)
Definition no_wrapper_attribute (function : pyval) : bool :=
  has_no_attribute "_counter" function
  && has_no_attribute "_function" function
  && has_no_attribute "_ismethod" function
  && has_no_attribute "timeout" function
  && has_no_attribute "callback" function.

(** A call of a program that decorates nothing with an attribute
    [_counter]: no function that is decorated has one, and no wrapper is
    bound and decorated again. *)
Definition plain_op (o : op) : bool :=
  match o with
  | OpTask args _ =>
      match args with
      | a0 :: _ => has_no_attribute "_counter" a0
      | [] => true
      end
  | OpWrapper _ _ function => has_no_attribute "_counter" function
  | OpCall _ _ _ => true
  | OpRewrap _ _ => false
  end.

(** The call makes a wrapper: the bare form of [task] on a function or
    method, or the closure [wrapper]. *)
Definition makes_wrapper (o : op) : bool :=
  match o with
  | OpTask args kwargs =>
      match args with
      | a0 :: _ => (size kwargs =? 0)%nat && is_function_or_method a0
      | [] => false
      end
  | OpWrapper _ _ _ => true
  | OpCall _ _ _ => false
  | OpRewrap _ _ => false
  end.

(** The number of calls of wrapper [i] in a program that starts with [n]
    wrappers made: the calls of index [i] at which that wrapper exists. *)
Fixpoint calls_of (i : nat) (p : list op) (n : nat) : nat :=
  match p with
  | [] => 0
  | o :: p' =>
      (match o with
       | OpCall j _ _ => if (i =? j)%nat && (i <? n)%nat then 1 else 0
       | _ => 0
       end
       + calls_of i p' (if makes_wrapper o then S n else n))%nat
  end.

(** The call is [task] in its keyword-configured form, with a target. *)
Definition starts_target (o : op) : bool :=
  match o with
  | OpTask _ kwargs =>
      match kwargs !! "target" with
      | Some target => is_not_None target
      | None => false
      end
  | _ => false
  end.

(** The number the count object of place [ref] is at; a count object
    that is yet to be made starts from 0. *)
Definition at_count (s : program_state) (ref : nat) : nat :=
  match counts (interp s) !! ref with
  | Some n => n
  | None => 0
  end.

(** The number of calls of [task] with a target in a program. *)
Definition target_calls (p : list op) : nat :=
  length (List.filter starts_target p).

(** A program that decorates a function, calls the wrapper, decorates the
    method that the descriptor of the wrapper gives for an instance, and
    calls the two wrappers; with two calls of the keyword-configured
    form. *)
Definition rewrap_program : list op :=
  [OpTask [PFunction "answer"] ∅;
   OpCall 0 [] [];
   OpTask [] {["target" := PFunction "answer"]};
   OpRewrap 0 (PObject "Job" true);
   OpCall 1 [] [];
   OpCall 0 [] [];
   OpTask [] {["target" := PFunction "sleep"]}].

(** Every wrapper of the program holds the count object that was made
    for it: the one of its own place. *)
Definition own_counters (s : program_state) : Prop :=
  length (counts (interp s)) = length (wrappers s)
  /\ forall i self, wrappers s !! i = Some self ->
                    TaskDecoratorWrapper._counter self = PCount i.

(** The keys [task] reads from its keyword arguments. *)
Definition recognized : list string :=
  ["timeout"; "callback"; "target"; "args"; "kwargs"].

(** The case in which the specification has [task] raise ValueError: no
    argument at all, or positional arguments only, the first of which is
    not a function or method. *)
Definition rejected (args : list pyval) (kwargs : gmap string pyval) : Prop :=
  (args = [] /\ kwargs = ∅)
  \/ (exists a0 rest, args = a0 :: rest /\ kwargs = ∅
                      /\ is_function_or_method a0 = false).


(** ** What a run of the worker goes through *)

(** The item [task_worker] gives to its first [queue.put]. *)
Definition put_item (error results : pyval) : pyval :=
  py_or (py_and (PBool (is_not_None error)) error) results.

(** How the [try]/[except] part of [task_worker] ends, and the locals
    [error] and [results] it leaves to the [finally] clause. *)
Definition worker_attempt (w : world) (function args kwargs : pyval)
    : res unit * pyval * pyval :=
  match py_call w function args kwargs with
  | Returns v _ => (Val tt, PNone, v)
  | Raises e _ =>
      if is_IOError_OSError e then (Exc (SystemExit 1), PNone, PNone)
      else if is_Exception e
           then (Val tt, PExc (set_traceback e (format_exc w e)), PNone)
           else (Exc e, PNone, PNone)
  | Hangs => (Stuck, PNone, PNone)
  end.

(** A world whose channel is broken: every put raises IOError. *)
Definition broken_pipe_world : world :=
  {| os_name := "posix";
     functions := example_functions;
     callbacks := example_callbacks;
     dump_function := example_dump_function;
     put_raises := fun _ => Some IOError_example;
     stack_text := fun e => exn_cls e |}.

(** The attributes of a task that are not its outcome. *)
Definition same_but_outcome (t t' : ProcessTask.t) : Prop :=
  ProcessTask.number t' = ProcessTask.number t
  /\ ProcessTask._function t' = ProcessTask._function t
  /\ ProcessTask._args t' = ProcessTask._args t
  /\ ProcessTask._kwargs t' = ProcessTask._kwargs t
  /\ ProcessTask._callback t' = ProcessTask._callback t
  /\ ProcessTask.timeout t' = ProcessTask.timeout t
  /\ ProcessTask.identifier t' = ProcessTask.identifier t
  /\ ProcessTask._cancelled t' = ProcessTask._cancelled t
  /\ ProcessTask._queue t' = ProcessTask._queue t.

Definition is_EvSpawn_or_EvDump (ev : event) : bool :=
  match ev with EvSpawn _ _ _ _ | EvDump _ _ => true | _ => false end.

(** ** The state a program ends in *)

Fixpoint final_state (p : list op) (s : program_state) : program_state :=
  match p with
  | [] => s
  | o :: p' => final_state p' (fst (step o s))
  end.

Definition task_of (c : created) : ProcessTask.t :=
  match c with
  | ByWrapper _ t => t
  | ByTarget t => t
  end.


(** * Properties *)

(** ** Numbers *)

Lemma Qlt_bool_true (a b : Q) : Qlt_bool a b = true <-> (a < b)%Q.
Proof.
  unfold Qlt_bool. rewrite negb_true_iff. split.
  - intros H. apply Qnot_le_lt. intros Hle.
    apply Qle_bool_iff in Hle. congruence.
  - intros H. destruct (Qle_bool b a) eqn:E; [|reflexivity].
    apply Qle_bool_iff in E. exfalso. exact (Qlt_not_le _ _ H E).
Qed.

Lemma Qlt_bool_false (a b : Q) : Qlt_bool a b = false <-> ~ (a < b)%Q.
Proof.
  rewrite <- Qlt_bool_true. destruct (Qlt_bool a b); split; intros; congruence.
Qed.

Lemma positive_truth (q : Q) : (0 < q)%Q -> py_truth (PNum q) = true.
Proof.
  intros H. simpl. destruct (Qeq_bool q 0) eqn:E; [|reflexivity].
  apply Qeq_bool_iff in E. rewrite E in H. exfalso. exact (Qlt_irrefl _ H).
Qed.

(** ** The manager, step by step *)

Lemma callback_of_set (v : pyval) (task : ProcessTask.t) :
  ProcessTask._callback (ProcessTask._set v task) = ProcessTask._callback task.
Proof. unfold ProcessTask._set. destruct (ProcessTask.outcome task); reflexivity. Qed.

Lemma run_manager_finalized w others task timeout v :
  resolved_timeout task = Val timeout ->
  finalization w others task = Some v ->
  run_manager w others task =
    callback_step w (ProcessTask._set v task)
      (prelude w task timeout ++ [EvSet v; EvTerminate; EvJoin]).
Proof.
  unfold finalization, resolved_timeout, awaited_channel, prelude,
    callback_step, spawned_function.
  intros Ht. rewrite Ht. revert Ht.
  unfold run_manager, task_manager, task_set, try_except, hand_to_callback,
    emit, lift_res, get_state, modify, ret, bind.
  cbn [the_task trace handed_back fst snd].
  destruct (py_gt_0 (ProcessTask.timeout task)) as [positive|e|]; try discriminate.
  intros [= <-].
  rewrite callback_of_set.
  destruct (String.eqb (os_name w) "nt");
    cbn [fst snd the_task trace handed_back app].
  all: destruct (queue_get _ _) as [item|e|]; try discriminate;
    cbn [find_handler]; [|destruct (is_Empty e); try discriminate].
  all: intros [= <-]; cbn [the_task trace handed_back app];
    destruct (is_not_None (ProcessTask._callback task)); [|reflexivity];
    cbn [the_task trace handed_back app];
    destruct (call_callback w _ _) as [[[]|e'|] left]; cbn [fst snd find_handler];
    try reflexivity; destruct (is_Exception e'); reflexivity.
Qed.

(** ** The worker *)

Ltac unfold_worker :=
  unfold run_worker, task_worker, try_finally, try_except, queue_put,
    sys_exit, lift_res, get_state, modify, raise, ret, bind,
    set_error_traceback, set_error, set_results, worker_init;
  cbn [error results puts fst snd].

Lemma format_exc_nonempty (w : world) (e : exn) : format_exc w e <> "".
Proof. unfold format_exc. simpl. discriminate. Qed.

(** A worker whose target raises IOError or OSError still runs its
    [finally] clause: its first call of [queue.put] is with [None]. *)
Lemma worker_oserror_puts_None w function args kwargs e d :
  py_call w function args kwargs = Raises e d ->
  is_IOError_OSError e = true ->
  hd_error (put_calls (run_worker w function args kwargs)) = Some PNone.
Proof.
  intros Hcall Hos. unfold put_calls. unfold_worker. rewrite Hcall.
  cbn [call_res find_handler]. rewrite Hos.
  cbn [error results puts fst snd py_and py_or py_truth is_not_None app].
  destruct (put_raises w PNone) as [p|]; cbn [find_handler]; [|reflexivity].
  destruct (is_IOError_OSError_EOFError p); [reflexivity|].
  destruct (is_PicklingError p); [|reflexivity].
  cbn [error results puts fst snd].
  destruct (put_raises w _); reflexivity.
Qed.

(** A worker whose target raises an exception that is falsy puts [None],
    the value of [results], in place of the exception. *)
Lemma worker_falsy_exception_puts_None w function args kwargs e d :
  py_call w function args kwargs = Raises e d ->
  is_IOError_OSError e = false -> is_Exception e = true ->
  exn_truth e = false ->
  hd_error (put_calls (run_worker w function args kwargs)) = Some PNone.
Proof.
  intros Hcall Hos Hexc Hfalse. unfold put_calls. unfold_worker. rewrite Hcall.
  cbn [call_res find_handler]. rewrite Hos, Hexc.
  destruct e as [k c a t tb]. cbn in Hfalse. subst t.
  cbn [error results puts fst snd set_traceback exn_truth
       py_and py_or py_truth is_not_None app].
  destruct (put_raises w PNone) as [p|]; cbn [find_handler]; [|reflexivity].
  destruct (is_IOError_OSError_EOFError p); [reflexivity|].
  destruct (is_PicklingError p); [|reflexivity].
  cbn [error results puts fst snd].
  destruct (put_raises w _); reflexivity.
Qed.

(** What the worker does once it has captured the exception [e] of its
    target, with the trace attached by the handler. *)
Lemma worker_captured_run w function args kwargs e d :
  py_call w function args kwargs = Raises e d ->
  is_IOError_OSError e = false -> is_Exception e = true ->
  exn_truth e = true ->
  run_worker w function args kwargs =
    let captured := PExc (set_traceback e (format_exc w e)) in
    match put_raises w captured with
    | None =>
        (Val tt, {| error := captured; results := PNone;
                    puts := [(captured, None)] |})
    | Some p =>
        if is_IOError_OSError_EOFError p then
          (Exc (SystemExit 1), {| error := captured; results := PNone;
                                  puts := [(captured, Some p)] |})
        else if is_PicklingError p then
          let failure := PExc (set_traceback p (format_exc w p)) in
          (match put_raises w failure with
           | None => Val tt
           | Some p' => Exc p'
           end,
           {| error := failure; results := PNone;
              puts := [(captured, Some p); (failure, put_raises w failure)] |})
        else
          (Exc p, {| error := captured; results := PNone;
                     puts := [(captured, Some p)] |})
    end.
Proof.
  intros Hcall Hos Hexc Htrue. unfold_worker. rewrite Hcall.
  cbn [call_res find_handler]. rewrite Hos, Hexc.
  destruct e as [k c a t tb]. cbn in Htrue. subst t.
  cbn [error results puts fst snd set_traceback exn_truth
       py_and py_or py_truth is_not_None app].
  destruct (put_raises w _) as [p|]; cbn [find_handler]; [|reflexivity].
  destruct (is_IOError_OSError_EOFError p); [reflexivity|].
  destruct (is_PicklingError p); [|reflexivity].
  cbn [error results puts fst snd app].
  destruct (put_raises w _); reflexivity.
Qed.

(** What the worker does when its target returns. *)
Lemma worker_returns_run w function args kwargs v d :
  py_call w function args kwargs = Returns v d ->
  put_raises w v = None ->
  run_worker w function args kwargs =
    (Val tt, {| error := PNone; results := v; puts := [(v, None)] |}).
Proof.
  intros Hcall Hput. unfold_worker. rewrite Hcall.
  cbn [call_res error results puts fst snd py_and py_or py_truth is_not_None app].
  rewrite Hput. reflexivity.
Qed.

(** C1 (the code departs from the claim).  On a target that raises
    IOError the worker process does exit with the non-zero status 1, but
    not with nothing written: the [finally] clause runs while SystemExit
    is on its way, and puts [None] on the channel. *)
Theorem C1_oserror_worker_writes_None :
  py_call posix_world (PFunction "read_config") (PList []) (PDict [])
    = Raises IOError_example 1
  /\ is_IOError_OSError IOError_example = true
  /\ written (run_worker posix_world (PFunction "read_config") (PList []) (PDict []))
     = [PNone]
  /\ exit_status (fst (run_worker posix_world (PFunction "read_config")
                                  (PList []) (PDict [])))
     = Some 1%Q.
Proof. repeat split; reflexivity. Qed.

(** C5, as stated, fails: a target interrupted by KeyboardInterrupt raises
    an exception that is neither an IOError nor an OSError, and the worker
    does not capture it: it puts [None] on the channel and the exception
    leaves the worker. *)
Lemma C5_system_exiting_exception_not_captured :
  py_call posix_world (PFunction "interrupted") (PList []) (PDict [])
    = Raises KeyboardInterrupt 1
  /\ is_IOError_OSError KeyboardInterrupt = false
  /\ put_calls (run_worker posix_world (PFunction "interrupted") (PList []) (PDict []))
     = [PNone]
  /\ fst (run_worker posix_world (PFunction "interrupted") (PList []) (PDict []))
     = Exc KeyboardInterrupt.
Proof. repeat split; reflexivity. Qed.

(** C5, amended.  For every worker run in which the target raises an
    exception that derives from Exception, is not an IOError or OSError
    and has a true truth value, the worker captures the exception, sets
    its [traceback] attribute to the non-empty text of [format_exc], and
    calls [queue.put] with that exception object first.  When that put
    succeeds it is the one item written and the worker returns; when it
    raises a PicklingError, that error gets its own trace and is the item
    of a second put, the one item written when that put succeeds. *)
Theorem C5_worker_captures_exception w function args kwargs e d :
  py_call w function args kwargs = Raises e d ->
  is_Exception e = true ->
  is_IOError_OSError e = false ->
  exn_truth e = true ->
  exn_traceback (set_traceback e (format_exc w e)) = Some (format_exc w e)
  /\ format_exc w e <> ""
  /\ hd_error (put_calls (run_worker w function args kwargs))
     = Some (PExc (set_traceback e (format_exc w e)))
  /\ match put_raises w (PExc (set_traceback e (format_exc w e))) with
     | None =>
         put_calls (run_worker w function args kwargs)
           = [PExc (set_traceback e (format_exc w e))]
         /\ written (run_worker w function args kwargs)
            = [PExc (set_traceback e (format_exc w e))]
         /\ fst (run_worker w function args kwargs) = Val tt
     | Some p =>
         if is_PicklingError p then
           put_calls (run_worker w function args kwargs)
             = [PExc (set_traceback e (format_exc w e));
                PExc (set_traceback p (format_exc w p))]
           /\ exn_traceback (set_traceback p (format_exc w p))
              = Some (format_exc w p)
           /\ format_exc w p <> ""
           /\ match put_raises w (PExc (set_traceback p (format_exc w p))) with
              | None =>
                  written (run_worker w function args kwargs)
                    = [PExc (set_traceback p (format_exc w p))]
                  /\ fst (run_worker w function args kwargs) = Val tt
              | Some _ => written (run_worker w function args kwargs) = []
              end
         else written (run_worker w function args kwargs) = []
     end.
Proof.
  intros Hcall Hexc Hos Htrue.
  rewrite (worker_captured_run _ _ _ _ _ _ Hcall Hos Hexc Htrue).
  assert (Htb : forall x s, exn_traceback (set_traceback x s) = Some s)
    by (intros [] ?; reflexivity).
  split; [apply Htb|]. split; [apply format_exc_nonempty|].
  cbv zeta. unfold put_calls, written.
  destruct (put_raises w (PExc (set_traceback e (format_exc w e)))) as [p|] eqn:Hp.
  - destruct (is_PicklingError p) eqn:Hpick.
    + assert (Hio : is_IOError_OSError_EOFError p = false).
      { unfold is_PicklingError in Hpick. unfold is_IOError_OSError_EOFError.
        destruct (exn_kind_of p); try discriminate; reflexivity. }
      rewrite Hio. cbn [snd fst puts map hd_error].
      split; [reflexivity|]. split; [reflexivity|].
      split; [apply Htb|]. split; [apply format_exc_nonempty|].
      destruct (put_raises w (PExc (set_traceback p (format_exc w p))));
        cbn; auto.
    + destruct (is_IOError_OSError_EOFError p); cbn; auto.
  - cbn. auto.
Qed.

(** The amended C5 on a ValueError, and on an exception that does not
    pickle. *)
Lemma C5_worker_captures_exception_witness :
  (py_call posix_world (PFunction "parse") (PList []) (PDict [])
     = Raises (ValueError "x") 2
   /\ is_Exception (ValueError "x") = true
   /\ is_IOError_OSError (ValueError "x") = false
   /\ exn_truth (ValueError "x") = true
   /\ written (run_worker posix_world (PFunction "parse") (PList []) (PDict []))
      = [PExc (set_traceback (ValueError "x")
                 (format_exc posix_world (ValueError "x")))])
  /\ (py_call posix_world (PFunction "fail") (PList []) (PDict [])
        = Raises Unpicklable 1
      /\ put_raises posix_world
           (PExc (set_traceback Unpicklable (format_exc posix_world Unpicklable)))
         = Some PicklingError_example
      /\ written (run_worker posix_world (PFunction "fail") (PList []) (PDict []))
         = [PExc (set_traceback PicklingError_example
                    (format_exc posix_world PicklingError_example))]).
Proof.
  split.
  - repeat (split; [reflexivity|]).
    exact (proj1 (proj2 (proj2 (proj2 (proj2
             (C5_worker_captures_exception posix_world (PFunction "parse")
                (PList []) (PDict []) (ValueError "x") 2
                eq_refl eq_refl eq_refl eq_refl)))))).
  - repeat (split; [reflexivity|]).
    exact (proj1 (proj2 (proj2 (proj2 (proj2 (proj2 (proj2
             (C5_worker_captures_exception posix_world (PFunction "fail")
                (PList []) (PDict []) Unpicklable 1
                eq_refl eq_refl eq_refl eq_refl)))))))).
Defined.

(** ** The manager *)

Lemma callback_step_task w task tr :
  the_task (snd (callback_step w task tr)) = task.
Proof.
  unfold callback_step.
  destruct (is_not_None _); [|reflexivity].
  destruct (fst (call_callback w _ task)) as [?|e|]; try reflexivity.
  destruct (is_Exception e); reflexivity.
Qed.

(** The callback step adds to the trace the call of the callback, and the
    print of what it raised, and nothing else. *)
Lemma callback_step_trace w task tr :
  exists post,
    trace (snd (callback_step w task tr)) = tr ++ post
    /\ ~ In EvTerminate post /\ ~ In EvJoin post
    /\ (forall v, ~ In (EvSet v) post).
Proof.
  unfold callback_step.
  destruct (is_not_None _).
  - destruct (fst (call_callback w _ task)) as [?|e|]; [| destruct (is_Exception e) |].
    all: eexists; split; [reflexivity|]; cbn; intuition discriminate.
  - exists []. rewrite app_nil_r. cbn. intuition.
Qed.

(** The local [timeout] is [None] or the configured timeout itself. *)
Lemma resolved_timeout_cases task timeout :
  resolved_timeout task = Val timeout ->
  timeout = PNone \/ timeout = ProcessTask.timeout task.
Proof.
  unfold resolved_timeout, py_gt_0, py_and, py_or.
  destruct (ProcessTask.timeout task) as [|b|q| | | | | | | | |]; try discriminate.
  - destruct b; intros [= <-]; cbn; auto.
  - cbn [py_truth]. destruct (Qlt_bool 0 q); intros [= <-]; cbn [py_truth].
    + destruct (negb (Qeq_bool q 0)); auto.
    + auto.
Qed.

Lemma resolved_timeout_number task q :
  ProcessTask.timeout task = PNum q ->
  resolved_timeout task = Val (if Qlt_bool 0 q then PNum q else PNone).
Proof.
  intros Hq. unfold resolved_timeout, py_gt_0, py_and, py_or. rewrite Hq.
  destruct (Qlt_bool 0 q) eqn:E; [|reflexivity].
  apply Qlt_bool_true in E. apply positive_truth in E.
  cbn [py_truth] in *. rewrite E. reflexivity.
Qed.

(** A wait without timeout never ends with [Empty], nor with any other
    exception. *)
Lemma queue_get_None_not_Empty (c : channel) (e : exn) :
  queue_get PNone c <> Exc e.
Proof. unfold queue_get. destruct (earliest c) as [[a x]|]; discriminate. Qed.

Lemma earliest_In (c : channel) a x : earliest c = Some (a, x) -> In (a, x) c.
Proof.
  revert a x. induction c as [|[b y] c IH]; intros a x; [discriminate|].
  cbn [earliest]. destruct (earliest c) as [[b' y']|].
  - destruct (Qle_bool b b'); intros [= <- <-]; [left; reflexivity|].
    right. apply IH. reflexivity.
  - intros [= <- <-]. left. reflexivity.
Qed.

(** An item that is put before all others is the one received. *)
Lemma earliest_first (c : channel) a x :
  (forall b y, In (b, y) c -> (a <= b)%Q) ->
  earliest ((a, x) :: c) = Some (a, x).
Proof.
  intros Hall. cbn [earliest].
  destruct (earliest c) as [[b y]|] eqn:E; [|reflexivity].
  apply earliest_In in E. apply Hall in E. apply Qle_bool_iff in E.
  rewrite E. reflexivity.
Qed.

Lemma finalization_item w others task item :
  awaited w others task = Val item -> finalization w others task = Some item.
Proof.
  unfold awaited, finalization. destruct (resolved_timeout task); try discriminate.
  intros ->. reflexivity.
Qed.

Lemma finalization_Empty w others task e :
  awaited w others task = Exc e -> is_Empty e = true ->
  finalization w others task
    = Some (PExc (TimeoutError "Task Timeout" (ProcessTask.timeout task))).
Proof.
  unfold awaited, finalization.
  destruct (resolved_timeout task) as [timeout|e'|] eqn:Ht; try discriminate.
  - intros Hget Hempty. rewrite Hget, Hempty.
    destruct (resolved_timeout_cases _ _ Ht) as [-> | ->]; [|reflexivity].
    exfalso. exact (queue_get_None_not_Empty _ _ Hget).
  - intros [= ->] Hempty. exfalso. revert Ht Hempty.
    unfold resolved_timeout, py_gt_0.
    destruct (ProcessTask.timeout task); try discriminate; intros [= <-]; discriminate.
Qed.

Lemma finalization_resolved w others task v :
  finalization w others task = Some v ->
  exists timeout, resolved_timeout task = Val timeout.
Proof.
  unfold finalization. destruct (resolved_timeout task); try discriminate. eauto.
Qed.

(** The state and the trace of a run that gets past its wait. *)
Lemma run_manager_past_wait w others task v :
  finalization w others task = Some v ->
  exists pre post,
    trace (snd (run_manager w others task))
      = pre ++ [EvSet v; EvTerminate; EvJoin] ++ post
    /\ the_task (snd (run_manager w others task)) = ProcessTask._set v task
    /\ (~ In EvTerminate pre /\ ~ In EvJoin pre /\ forall x, ~ In (EvSet x) pre)
    /\ (~ In EvTerminate post /\ ~ In EvJoin post /\ forall x, ~ In (EvSet x) post).
Proof.
  intros Hfin. destruct (finalization_resolved _ _ _ _ Hfin) as [timeout Ht].
  rewrite (run_manager_finalized _ _ _ _ _ Ht Hfin).
  destruct (callback_step_trace w (ProcessTask._set v task)
              (prelude w task timeout ++ [EvSet v; EvTerminate; EvJoin]))
    as (post & Htr & Hpost).
  exists (prelude w task timeout), post.
  rewrite Htr, callback_step_task, <- app_assoc.
  split; [reflexivity|]. split; [reflexivity|]. split; [|exact Hpost].
  unfold prelude. destruct (String.eqb (os_name w) "nt"); cbn; intuition discriminate.
Qed.

(** Every run whose timeout resolves spawns the worker and starts the
    wait: its trace begins with the prelude. *)
Lemma run_manager_prelude w others task timeout :
  resolved_timeout task = Val timeout ->
  exists rest,
    trace (snd (run_manager w others task)) = prelude w task timeout ++ rest.
Proof.
  unfold resolved_timeout, prelude, spawned_function.
  unfold run_manager, task_manager, task_set, try_except, hand_to_callback,
    emit, lift_res, get_state, modify, ret, bind.
  cbn [the_task trace handed_back fst snd].
  destruct (py_gt_0 (ProcessTask.timeout task)) as [positive|e|]; try discriminate.
  intros [= <-].
  destruct (String.eqb (os_name w) "nt");
    cbn [fst snd the_task trace handed_back app].
  all: destruct (queue_get _ _) as [item|e|];
    cbn [find_handler the_task trace handed_back app];
    [| destruct (is_Empty e); cbn [the_task trace handed_back app] |].
  all: try (eexists; reflexivity).
  all: destruct (is_not_None (ProcessTask._callback task));
    cbn [the_task trace handed_back app]; try (eexists; reflexivity).
  all: destruct (call_callback w _ _) as [[[]|e'|] left]; cbn [fst snd find_handler];
    try (eexists; reflexivity); destruct (is_Exception e'); eexists; reflexivity.
Qed.

(** C2 (the code departs from the claim).  Where [os.name] is ['nt'] the
    manager does marshal the function and its args first, and spawns the
    worker with the marshaled function, but with the args of the task as
    they were: the marshaled args are not used. *)
Theorem C2_nt_spawn_keeps_unmarshaled_args :
  os_name nt_world = "nt"
  /\ dump_function nt_world (PFunction "answer") (PList [PNum 7])
     = (PFunction "trampoline", PList [PFunction "answer"; PNum 7])
  /\ take 2 (trace (snd (run_manager nt_world []
       (ProcessTask.__init__ 0 (PFunction "answer") (PList [PNum 7]) (PDict [])
          PNone (PNum 0) PNone 0))))
     = [EvDump (PFunction "answer") (PList [PNum 7]);
        EvSpawn 0 (PFunction "trampoline") (PList [PNum 7]) (PDict [])].
Proof. repeat split; reflexivity. Qed.

Lemma outcome_of_set_fresh v task :
  ProcessTask.outcome task = None ->
  ProcessTask.outcome (ProcessTask._set v task) = Some v.
Proof. intros H. unfold ProcessTask._set. rewrite H. reflexivity. Qed.

(** C3 (the code departs from the claim).  The deadline is resolved as
    the claim has it: for the task of timeout 0 the local [timeout] is
    [None] and the wait is [queue.get(None)], without a bound.  But where
    [os.name] is ['nt'] the task of timeout 0 whose target returns 42 is
    not finalized with 42: the worker is spawned with the marshaled
    function on the args of the task as they were (the slip of C2), the
    trampoline called without the function raises TypeError, and that
    exception is the outcome of the task.  The marshaled function on the
    marshaled args returns 42, and so does the same task off ['nt']. *)
Theorem C3_nt_unbounded_wait_loses_42 :
  ProcessTask.timeout (example_task "answer" PNone (PNum 0)) = PNum 0
  /\ resolved_timeout (example_task "answer" PNone (PNum 0)) = Val PNone
  /\ In (EvGet 0 PNone)
        (trace (snd (run_manager nt_world [] (example_task "answer" PNone (PNum 0)))))
  /\ py_call nt_world (PFunction "answer") (PList []) (PDict [])
     = Returns (PNum 42) 3
  /\ py_call nt_world
       (fst (dump_function nt_world (PFunction "answer") (PList [])))
       (snd (dump_function nt_world (PFunction "answer") (PList [])))
       (PDict [])
     = Returns (PNum 42) 3
  /\ ProcessTask.outcome (the_task (snd (run_manager nt_world []
        (example_task "answer" PNone (PNum 0)))))
     = Some (PExc (Exn KException "TypeError"
                     [PStr "trampoline() needs a function"] true
                     (Some (format_exc nt_world
                              (TypeError "trampoline() needs a function")))))
  /\ ProcessTask.outcome (the_task (snd (run_manager nt_world []
        (example_task "answer" PNone (PNum 0)))))
     <> Some (PNum 42)
  /\ ProcessTask.outcome (the_task (snd (run_manager posix_world []
        (example_task "answer" PNone (PNum 0)))))
     = Some (PNum 42).
Proof.
  repeat split; try reflexivity.
  - vm_compute. right. right. left. reflexivity.
  - vm_compute. discriminate.
Qed.

(** C4.  For every fresh task whose wait elapses with nothing received
    ([queue.get] raises [Empty]), the manager gives [task._set] a
    TimeoutError whose second argument is the configured timeout of the
    task, and that is the outcome of the task. *)
Theorem C4_timeout_carries_bound w others task e :
  ProcessTask.outcome task = None ->
  awaited w others task = Exc e ->
  is_Empty e = true ->
  ProcessTask.outcome (the_task (snd (run_manager w others task)))
    = Some (PExc (TimeoutError "Task Timeout" (ProcessTask.timeout task)))
  /\ In (EvSet (PExc (TimeoutError "Task Timeout" (ProcessTask.timeout task))))
        (trace (snd (run_manager w others task))).
Proof.
  intros Hfresh Hget Hempty.
  pose proof (finalization_Empty _ _ _ _ Hget Hempty) as Hfin.
  destruct (run_manager_past_wait _ _ _ _ Hfin) as (pre & post & -> & -> & _).
  split; [apply outcome_of_set_fresh, Hfresh|].
  apply in_or_app. right. left. reflexivity.
Qed.

(** C4 on a task with timeout 1/2 whose target sleeps 5 seconds. *)
Lemma C4_timeout_carries_bound_witness :
  ProcessTask.outcome (example_task "sleep" PNone (PNum (1 # 2))) = None
  /\ awaited posix_world [] (example_task "sleep" PNone (PNum (1 # 2))) = Exc Empty
  /\ is_Empty Empty = true
  /\ ProcessTask.outcome (the_task (snd (run_manager posix_world []
        (example_task "sleep" PNone (PNum (1 # 2))))))
     = Some (PExc (TimeoutError "Task Timeout" (PNum (1 # 2)))).
Proof.
  repeat (split; [reflexivity|]).
  exact (proj1 (C4_timeout_carries_bound posix_world []
           (example_task "sleep" PNone (PNum (1 # 2))) Empty
           eq_refl eq_refl eq_refl)).
Defined.

(** C6.  In both branches of the wait, an item received or [Empty] (the
    two cases in which [finalization] is [Some v]), the trace of the
    manager has [task._set(v)], then [process.terminate()], then
    [process.join()], one after the other, and neither a terminate nor a
    join anywhere else. *)
Theorem C6_terminate_and_join_in_every_branch w others task v :
  finalization w others task = Some v ->
  exists pre post,
    trace (snd (run_manager w others task))
      = pre ++ [EvSet v; EvTerminate; EvJoin] ++ post
    /\ ~ In EvTerminate pre /\ ~ In EvJoin pre
    /\ ~ In EvTerminate post /\ ~ In EvJoin post.
Proof.
  intros Hfin.
  destruct (run_manager_past_wait _ _ _ _ Hfin)
    as (pre & post & Htr & _ & (H1 & H2 & _) & (H3 & H4 & _)).
  exists pre, post. auto.
Qed.

(** C6 on a task whose item is received, and on one whose wait elapses. *)
Lemma C6_terminate_and_join_in_every_branch_witness :
  (finalization posix_world [] (example_task "answer" PNone (PNum 0))
     = Some (PNum 42)
   /\ exists pre post,
        trace (snd (run_manager posix_world [] (example_task "answer" PNone (PNum 0))))
          = pre ++ [EvSet (PNum 42); EvTerminate; EvJoin] ++ post
        /\ ~ In EvTerminate pre /\ ~ In EvJoin pre
        /\ ~ In EvTerminate post /\ ~ In EvJoin post)
  /\ (finalization posix_world [] (example_task "sleep" PNone (PNum (1 # 2)))
        = Some (PExc (TimeoutError "Task Timeout" (PNum (1 # 2))))
      /\ exists pre post,
           trace (snd (run_manager posix_world []
                         (example_task "sleep" PNone (PNum (1 # 2)))))
             = pre ++ [EvSet (PExc (TimeoutError "Task Timeout" (PNum (1 # 2))));
                       EvTerminate; EvJoin] ++ post
           /\ ~ In EvTerminate pre /\ ~ In EvJoin pre
           /\ ~ In EvTerminate post /\ ~ In EvJoin post).
Proof.
  split; (split; [reflexivity|]).
  - exact (C6_terminate_and_join_in_every_branch posix_world []
             (example_task "answer" PNone (PNum 0)) (PNum 42) eq_refl).
  - exact (C6_terminate_and_join_in_every_branch posix_world []
             (example_task "sleep" PNone (PNum (1 # 2)))
             (PExc (TimeoutError "Task Timeout" (PNum (1 # 2)))) eq_refl).
Defined.

(** C7, as stated, fails: a callback that raises KeyboardInterrupt, which
    does not derive from Exception, is not caught: the exception leaves
    the manager. *)
Lemma C7_system_exiting_callback_propagates :
  is_not_None (ProcessTask._callback
                 (example_task "answer" (PFunction "abort") (PNum 0))) = true
  /\ finalization posix_world [] (example_task "answer" (PFunction "abort") (PNum 0))
     = Some (PNum 42)
  /\ fst (call_callback posix_world (PFunction "abort")
            (ProcessTask._set (PNum 42)
               (example_task "answer" (PFunction "abort") (PNum 0))))
     = Exc KeyboardInterrupt
  /\ fst (run_manager posix_world []
            (example_task "answer" (PFunction "abort") (PNum 0)))
     = Exc KeyboardInterrupt.
Proof. repeat split; reflexivity. Qed.

(** C7, amended.  When a callback is registered and the wait of the
    manager has ended with the outcome [v], the manager calls the callback
    exactly once, on the task with its outcome set, right after
    [task._set(v)], terminate and join.  An exception the callback raises
    that derives from Exception is caught and only printed: the manager
    returns, and the print is the last thing it does; any other exception
    leaves the manager.  In every case the manager leaves the task as
    [task._set(v)] made it: the handler writes nothing of it, and the task
    object is at the end what the callback, which was given it, made of
    it. *)
Theorem C7_callback_once_errors_logged w others task v :
  finalization w others task = Some v ->
  is_not_None (ProcessTask._callback task) = true ->
  callback_calls (trace (snd (run_manager w others task))) = 1
  /\ (exists pre post,
        trace (snd (run_manager w others task))
          = pre ++ [EvSet v; EvTerminate; EvJoin;
                    EvCallback (ProcessTask._set v task)] ++ post
        /\ forall t, ~ In (EvCallback t) pre)
  /\ ProcessTask.outcome (ProcessTask._set v task)
     = Some (match ProcessTask.outcome task with Some old => old | None => v end)
  /\ the_task (snd (run_manager w others task)) = ProcessTask._set v task
  /\ handed_back (snd (run_manager w others task))
     = Some (snd (call_callback w (ProcessTask._callback task)
                    (ProcessTask._set v task)))
  /\ match fst (call_callback w (ProcessTask._callback task)
                  (ProcessTask._set v task)) with
     | Val _ => fst (run_manager w others task) = Val tt
     | Exc e =>
         if is_Exception e
         then fst (run_manager w others task) = Val tt
              /\ last (trace (snd (run_manager w others task))) = Some (EvPrintExc e)
         else fst (run_manager w others task) = Exc e
     | Stuck => fst (run_manager w others task) = Stuck
     end.
Proof.
  intros Hfin Hcb. destruct (finalization_resolved _ _ _ _ Hfin) as [timeout Ht].
  rewrite (run_manager_finalized _ _ _ _ _ Ht Hfin).
  assert (Hpre : forall t, ~ In (EvCallback t) (prelude w task timeout)).
  { intros t. unfold prelude. destruct (String.eqb (os_name w) "nt"); cbn;
      intuition discriminate. }
  assert (Hcount : forall post,
    callback_calls ((prelude w task timeout ++ [EvSet v; EvTerminate; EvJoin])
                    ++ EvCallback (ProcessTask._set v task) :: post)
    = S (callback_calls post)).
  { intros post. unfold callback_calls, prelude.
    destruct (String.eqb (os_name w) "nt"); reflexivity. }
  assert (Hlast : forall e,
    last ((prelude w task timeout ++ [EvSet v; EvTerminate; EvJoin])
          ++ [EvCallback (ProcessTask._set v task); EvPrintExc e])
    = Some (EvPrintExc e)).
  { intros e. unfold prelude. destruct (String.eqb (os_name w) "nt"); reflexivity. }
  assert (Hout : ProcessTask.outcome (ProcessTask._set v task)
    = Some (match ProcessTask.outcome task with Some old => old | None => v end)).
  { unfold ProcessTask._set. destruct (ProcessTask.outcome task) eqn:E; cbn; auto. }
  unfold callback_step. cbv zeta. rewrite callback_of_set, Hcb.
  destruct (call_callback w _ _) as [[[]|e|] left]; cbn [fst snd];
    [| destruct (is_Exception e) |]; cbn [fst snd the_task trace handed_back].
  all: split; [apply Hcount|].
  all: split;
    [ eexists (prelude w task timeout), _; split;
      [rewrite <- app_assoc; reflexivity | exact Hpre] |].
  all: split; [exact Hout|]. all: split; [reflexivity|].
  all: split; [reflexivity|]. all: auto.
Qed.

(** The amended C7 on a callback that raises ValueError. *)
Lemma C7_callback_once_errors_logged_witness :
  finalization posix_world [] (example_task "answer" (PFunction "broken") (PNum 0))
    = Some (PNum 42)
  /\ is_not_None (ProcessTask._callback
                    (example_task "answer" (PFunction "broken") (PNum 0))) = true
  /\ callback_calls (trace (snd (run_manager posix_world []
        (example_task "answer" (PFunction "broken") (PNum 0))))) = 1
  /\ ProcessTask.outcome (the_task (snd (run_manager posix_world []
        (example_task "answer" (PFunction "broken") (PNum 0)))))
     = Some (PNum 42)
  /\ fst (run_manager posix_world []
            (example_task "answer" (PFunction "broken") (PNum 0))) = Val tt.
Proof.
  split; [reflexivity|]. split; [reflexivity|].
  pose proof (C7_callback_once_errors_logged posix_world []
                (example_task "answer" (PFunction "broken") (PNum 0)) (PNum 42)
                eq_refl eq_refl) as (Hcalls & _ & Hout & Htask & _ & Hend).
  split; [exact Hcalls|]. split.
  - rewrite Htask. exact Hout.
  - exact (proj1 Hend).
Defined.

(** ** Cancellation *)

Lemma resolved_timeout_seconds task timeout :
  resolved_timeout task = Val timeout ->
  timeout = PNone \/ exists t, py_seconds timeout = Some t.
Proof.
  intros Ht. destruct (resolved_timeout_cases _ _ Ht) as [-> | ->]; [auto|].
  right. revert Ht. unfold resolved_timeout, py_gt_0.
  destruct (ProcessTask.timeout task); try discriminate; cbn; eauto.
Qed.

(** The wait receives the first item when it is there in time. *)
Lemma queue_get_first (c : channel) timeout a x :
  earliest c = Some (a, x) ->
  timeout = PNone \/ (exists t, py_seconds timeout = Some t) ->
  match py_seconds timeout with Some t => (a <= t)%Q | None => True end ->
  queue_get timeout c = Val x.
Proof.
  intros He [-> | [t Hs]] Hin; unfold queue_get; rewrite He; [reflexivity|].
  rewrite Hs in *. apply Qle_bool_iff in Hin. rewrite Hin.
  destruct timeout; try discriminate; reflexivity.
Qed.

Lemma worker_puts_time w function args kwargs b y :
  In (b, y) (worker_puts w function args kwargs) ->
  call_end (py_call w function args kwargs) = Some b.
Proof.
  unfold worker_puts. destruct (call_end _) as [d|]; [|intros []].
  intros Hin. apply in_map_iff in Hin. destruct Hin as (x & [= <- <-] & _).
  reflexivity.
Qed.

(** C8.  [_cancel] sets the cancellation flag and puts a TaskCancelled
    item on the channel of the task (the put succeeding), and leaves the
    outcome of the task as it is, so that it changes nothing of the outcome
    of a task that is terminal.  When the channel was empty, the worker
    puts its own item later than the cancellation, and the wait lasts till
    the cancellation, the manager of a fresh task receives that item and
    makes it the outcome. *)
Theorem C8_cancel_injects_outcome w now task chan :
  put_raises w (PExc (TaskCancelled "Task Cancelled")) = None ->
  _cancel w now (task, chan)
    = (Val tt, (ProcessTask.set_cancelled task,
                chan ++ [(now, PExc (TaskCancelled "Task Cancelled"))]))
  /\ ProcessTask._cancelled (fst (snd (_cancel w now (task, chan)))) = true
  /\ ProcessTask.outcome (fst (snd (_cancel w now (task, chan))))
     = ProcessTask.outcome task
  /\ (forall timeout,
        chan = [] ->
        ProcessTask.outcome task = None ->
        resolved_timeout task = Val timeout ->
        match py_seconds timeout with Some t => (now <= t)%Q | None => True end ->
        match call_end (py_call w (spawned_function w task)
                          (ProcessTask._args task) (ProcessTask._kwargs task)) with
        | Some d => (now < d)%Q
        | None => True
        end ->
        ProcessTask.outcome
          (the_task (snd (run_manager w (snd (snd (_cancel w now (task, chan))))
                                      (fst (snd (_cancel w now (task, chan)))))))
        = Some (PExc (TaskCancelled "Task Cancelled"))).
Proof.
  intros Hput.
  assert (Hrun : _cancel w now (task, chan)
    = (Val tt, (ProcessTask.set_cancelled task,
                chan ++ [(now, PExc (TaskCancelled "Task Cancelled"))]))).
  { unfold _cancel, bind, modify. rewrite Hput. reflexivity. }
  rewrite Hrun. cbn [fst snd].
  split; [reflexivity|]. split; [reflexivity|]. split; [reflexivity|].
  intros timeout -> Hfresh Ht Hin Hlate. cbn [app].
  set (item := PExc (TaskCancelled "Task Cancelled")).
  set (task' := ProcessTask.set_cancelled task).
  assert (Ht' : resolved_timeout task' = Val timeout) by exact Ht.
  assert (Hfin : finalization w [(now, item)] task' = Some item).
  { apply finalization_item. unfold awaited. rewrite Ht'.
    apply (queue_get_first _ _ now);
      [| exact (resolved_timeout_seconds _ _ Ht) | exact Hin].
    unfold awaited_channel. cbn [app]. apply earliest_first.
    intros b y Hby. apply worker_puts_time in Hby.
    change (spawned_function w task') with (spawned_function w task) in Hby.
    change (ProcessTask._args task') with (ProcessTask._args task) in Hby.
    change (ProcessTask._kwargs task') with (ProcessTask._kwargs task) in Hby.
    rewrite Hby in Hlate. apply Qlt_le_weak, Hlate. }
  destruct (run_manager_past_wait _ _ _ _ Hfin) as (pre & post & _ & -> & _).
  apply outcome_of_set_fresh. exact Hfresh.
Qed.

(** C8 on a task without timeout, cancelled after 1 second, whose target
    returns after 3 seconds. *)
Lemma C8_cancel_injects_outcome_witness :
  put_raises posix_world (PExc (TaskCancelled "Task Cancelled")) = None
  /\ ProcessTask._cancelled
       (fst (snd (_cancel posix_world 1 (example_task "answer" PNone (PNum 0), []))))
     = true
  /\ ProcessTask.outcome
       (the_task (snd (run_manager posix_world
          (snd (snd (_cancel posix_world 1 (example_task "answer" PNone (PNum 0), []))))
          (fst (snd (_cancel posix_world 1 (example_task "answer" PNone (PNum 0), [])))))))
     = Some (PExc (TaskCancelled "Task Cancelled")).
Proof.
  split; [reflexivity|].
  pose proof (C8_cancel_injects_outcome posix_world 1
                (example_task "answer" PNone (PNum 0)) [] eq_refl)
    as (_ & Hflag & _ & Hmanager).
  split; [exact Hflag|].
  refine (Hmanager PNone eq_refl eq_refl eq_refl I _). reflexivity.
Defined.

(** ** The factory *)

(** C9 (the code departs from the claim).  A wrapper does not always
    have an id sequence of its own.  [update_wrapper], the last statement
    of [__init__], replaces the [count()] just made for the wrapper by the
    attribute [_counter] of the decorated function when it has one; the
    method that the descriptor of a wrapper gives for an instance has the
    attributes of that wrapper, so the wrapper made of it holds the count
    object of the first.  After one call of the first wrapper, the first
    call of the second makes the task of number 1, not 0, and the second
    call of the first makes the task of number 2, not 1.  The
    keyword-configured form does draw its numbers, 0 and 1, from the one
    global counter. *)
Theorem C9_rewrapped_method_shares_counter :
  TaskDecoratorWrapper._counter <$> wrappers (final_state rewrap_program start)
    = [PCount 0; PCount 0]
  /\ numbers_of_wrapper 0 (exec rewrap_program start) = [0; 2]
  /\ numbers_of_wrapper 1 (exec rewrap_program start) = [1]
  /\ numbers_of_target (exec rewrap_program start) = [0; 1].
Proof. repeat split; reflexivity. Qed.

(** The tasks of a program that interleaves two wrappers and the
    keyword-configured form. *)
Example numbers_of_interleaved_program :
  let p := [OpTask [PFunction "answer"] ∅; OpTask [PFunction "sleep"] ∅;
            OpCall 0 [] []; OpCall 1 [] []; OpCall 0 [] [];
            OpTask [] {["target" := PFunction "answer"]};
            OpCall 0 [] []; OpTask [] {["target" := PFunction "sleep"]}] in
  numbers_of_wrapper 0 (exec p start) = [0; 1; 2]
  /\ numbers_of_wrapper 1 (exec p start) = [0]
  /\ numbers_of_target (exec p start) = [0; 1].
Proof. repeat split; reflexivity. Qed.

(** With keyword arguments, [task] reads the five keys it knows from the
    dictionary it was given, and nothing else. *)
Lemma task_keywords args (kwargs : gmap string pyval) :
  kwargs <> ∅ ->
  task args kwargs =
    let timeout := match kwargs !! "timeout" with Some v => v | None => PNum 0 end in
    let callback := match kwargs !! "callback" with Some v => v | None => PNone end in
    let target := match kwargs !! "target" with Some v => v | None => PNone end in
    let args := match kwargs !! "args" with Some v => v | None => PList [] end in
    let kwargs := match kwargs !! "kwargs" with Some v => v | None => PDict [] end in
    if is_not_None target then
      do queue <- new_SimpleQueue;
      do nr <- next_task_counter;
      run start_task_manager
            (ProcessTask.__init__ nr target args kwargs callback timeout PNone queue);
      ret (Started (ProcessTask.__init__ nr target args kwargs callback timeout
                      PNone queue))
    else ret (Decorator timeout callback).
Proof.
  intros Hne. unfold task, dict_pop.
  assert (Hsize : size kwargs <> 0) by (intros H; apply map_size_empty_iff in H; auto).
  destruct (Nat.eqb_spec (size kwargs) 0) as [|_]; [contradiction|].
  rewrite andb_false_r.
  destruct (Nat.ltb_spec 0 (size kwargs)) as [_|]; [|lia].
  cbv beta iota zeta.
  rewrite !lookup_delete_ne by discriminate. reflexivity.
Qed.

(** C10.  [task] raises ValueError exactly when it is called with no
    argument at all, or with positional arguments only whose first is not
    a function or method; in every other case it returns a value.  When a
    keyword argument is present the positional arguments play no part, and
    a key that [task] does not know, added to the keyword arguments,
    changes nothing. *)
Theorem C10_task_raises_exactly args (kwargs : gmap string pyval) it :
  ((exists msg it', task args kwargs it = (Exc (ValueError msg), it'))
   <-> rejected args kwargs)
  /\ ((exists r it', task args kwargs it = (Val r, it'))
      <-> ~ rejected args kwargs)
  /\ (kwargs <> ∅ -> forall args', task args' kwargs it = task args kwargs it)
  /\ (kwargs <> ∅ -> forall key v, ~ In key recognized ->
        task args (<[key := v]> kwargs) it = task args kwargs it).
Proof.
  assert (Hcases :
    (rejected args kwargs
     /\ exists msg, task args kwargs it = (Exc (ValueError msg), it))
    \/ (~ rejected args kwargs
        /\ exists r it', task args kwargs it = (Val r, it'))).
  { destruct (decide (kwargs = ∅)) as [->|Hne].
    - unfold task. rewrite map_size_empty. destruct args as [|a0 rest].
      + left. split; [left; auto|]. eexists. reflexivity.
      + cbn. destruct (is_function_or_method a0) eqn:Hf.
        * right. split; [|eexists _, _; reflexivity].
          intros [[? _] | (a & r & [= <- <-] & _ & Hnf)]; congruence.
        * left. split; [right; eauto|]. eexists. reflexivity.
    - right. split.
      + intros [[_ ?] | (a & r & _ & ? & _)]; contradiction.
      + rewrite (task_keywords _ _ Hne). cbv zeta.
        destruct (is_not_None _); eexists _, _; reflexivity. }
  split; [|split; [|split]].
  - split.
    + intros (msg & it' & Hrun).
      destruct Hcases as [[Hrej _] | [_ (r & it'' & Hval)]]; [exact Hrej|].
      rewrite Hval in Hrun. discriminate.
    + intros Hrej. destruct Hcases as [[_ (msg & Hrun)] | [Hnot _]]; [eauto|].
      contradiction.
  - split.
    + intros (r & it' & Hval) Hrej.
      destruct Hcases as [[_ (msg & Hrun)] | [Hnot _]]; [|contradiction].
      rewrite Hval in Hrun. discriminate.
    + intros Hnot. destruct Hcases as [[Hrej _] | [_ Hval]]; [contradiction|].
      exact Hval.
  - intros Hne args'. rewrite !(task_keywords _ _ Hne). reflexivity.
  - intros Hne key v Hkey.
    rewrite (task_keywords _ _ Hne), (task_keywords _ _ (insert_non_empty _ _ _)).
    unfold recognized in Hkey. cbn [In] in Hkey.
    rewrite !lookup_insert_ne by (intros ->; tauto). reflexivity.
Qed.

(** * Further properties of the code *)

(** ** task_worker, in every case *)

(** The run of the worker, from how its [try]/[except] part ends. *)
Lemma worker_run_shape w function args kwargs :
  run_worker w function args kwargs =
    match worker_attempt w function args kwargs with
    | (Stuck, _, _) => (Stuck, worker_init)
    | (pending, error, results) =>
        let item := put_item error results in
        match put_raises w item with
        | None =>
            (pending, {| error := error; results := results;
                         puts := [(item, None)] |})
        | Some p =>
            if is_IOError_OSError_EOFError p then
              (Exc (SystemExit 1), {| error := error; results := results;
                                      puts := [(item, Some p)] |})
            else if is_PicklingError p then
              let failure := PExc (set_traceback p (format_exc w p)) in
              (match put_raises w failure with
               | None => pending
               | Some p' => Exc p'
               end,
               {| error := failure; results := results;
                  puts := [(item, Some p); (failure, put_raises w failure)] |})
            else
              (Exc p, {| error := error; results := results;
                         puts := [(item, Some p)] |})
        end
    end.
Proof.
  unfold worker_attempt, put_item. unfold_worker.
  destruct (py_call w function args kwargs) as [v d|e d|];
    cbn [call_res find_handler]; [| |reflexivity].
  - cbn [error results puts fst snd py_and py_or py_truth is_not_None app].
    destruct (put_raises w v) as [p|]; cbn [find_handler]; [|reflexivity].
    destruct (is_IOError_OSError_EOFError p); [reflexivity|].
    destruct (is_PicklingError p); [|reflexivity].
    cbn [error results puts fst snd app].
    destruct (put_raises w _); reflexivity.
  - destruct (is_IOError_OSError e); [|destruct (is_Exception e)].
    all: cbn [error results puts fst snd py_and py_or py_truth is_not_None app].
    all: match goal with
         | |- context [put_raises _ ?i] =>
             destruct (put_raises w i) as [p|]
         end; cbn [find_handler]; try reflexivity.
    all: destruct (is_IOError_OSError_EOFError p); [reflexivity|];
      destruct (is_PicklingError p); [|reflexivity];
      cbn [error results puts fst snd app];
      destruct (put_raises w _); reflexivity.
Qed.

(** The channel after a worker whose target returned. *)
Lemma worker_puts_returns w function args kwargs v d :
  py_call w function args kwargs = Returns v d ->
  put_raises w v = None ->
  worker_puts w function args kwargs = [(d, v)].
Proof.
  intros Hcall Hput. unfold worker_puts. rewrite Hcall.
  rewrite (worker_returns_run _ _ _ _ _ _ Hcall Hput). reflexivity.
Qed.

(** The channel after a worker whose target raised IOError or OSError. *)
Lemma worker_puts_oserror w function args kwargs e d :
  py_call w function args kwargs = Raises e d ->
  is_IOError_OSError e = true ->
  put_raises w PNone = None ->
  worker_puts w function args kwargs = [(d, PNone)].
Proof.
  intros Hcall Hos Hput. unfold worker_puts.
  rewrite worker_run_shape. unfold worker_attempt, put_item, written.
  rewrite Hcall, Hos. cbn [py_and py_or py_truth is_not_None call_end].
  rewrite Hput. reflexivity.
Qed.

(** X1.  When the target returns [v] and the put of [v] succeeds, the
    worker makes one call of [queue.put], with [v] itself, whatever the
    truth value of [v] (0, an empty list, [None]); it returns, so that the
    process ends with status 0, and [v] is on the channel at the time the
    target is over. *)
Theorem worker_delivers_return_value w function args kwargs v d :
  py_call w function args kwargs = Returns v d ->
  put_raises w v = None ->
  put_calls (run_worker w function args kwargs) = [v]
  /\ written (run_worker w function args kwargs) = [v]
  /\ fst (run_worker w function args kwargs) = Val tt
  /\ exit_status (fst (run_worker w function args kwargs)) = Some 0%Q
  /\ worker_puts w function args kwargs = [(d, v)].
Proof.
  intros Hcall Hput. unfold worker_puts. rewrite Hcall.
  rewrite (worker_returns_run _ _ _ _ _ _ Hcall Hput). repeat split.
Qed.

(** X1 on the target that returns the falsy value [None] after 5
    seconds. *)
Lemma worker_delivers_return_value_witness :
  py_call posix_world (PFunction "sleep") (PList []) (PDict []) = Returns PNone 5
  /\ put_raises posix_world PNone = None
  /\ written (run_worker posix_world (PFunction "sleep") (PList []) (PDict []))
     = [PNone]
  /\ worker_puts posix_world (PFunction "sleep") (PList []) (PDict [])
     = [(5%Q, PNone)].
Proof.
  split; [reflexivity|]. split; [reflexivity|].
  pose proof (worker_delivers_return_value posix_world (PFunction "sleep")
                (PList []) (PDict []) PNone 5 eq_refl eq_refl)
    as (_ & Hw & _ & _ & Hp).
  split; [exact Hw | exact Hp].
Defined.

(** X2.  In every run the worker calls [queue.put] at most twice and at
    most one item reaches the channel; it calls [queue.put] at least once
    unless its target never ends, in which case it calls it not at all. *)
Theorem worker_puts_at_most_one_item w function args kwargs :
  length (written (run_worker w function args kwargs)) <= 1
  /\ length (put_calls (run_worker w function args kwargs)) <= 2
  /\ match py_call w function args kwargs with
     | Hangs => put_calls (run_worker w function args kwargs) = []
                /\ fst (run_worker w function args kwargs) = Stuck
     | _ => 1 <= length (put_calls (run_worker w function args kwargs))
     end.
Proof.
  rewrite worker_run_shape. unfold worker_attempt, put_calls, written.
  destruct (py_call w function args kwargs) as [v d|e d|].
  3: cbn; auto.
  2: destruct (is_IOError_OSError e); [|destruct (is_Exception e)].
  all: cbv zeta;
    match goal with
    | |- context [put_raises _ ?i] => destruct (put_raises w i) as [p|]
    end; [|cbn; lia].
  all: destruct (is_IOError_OSError_EOFError p); [cbn; lia|];
    destruct (is_PicklingError p); [|cbn; lia];
    destruct (put_raises w _); cbn; lia.
Qed.

(** X3.  When the target raises an IOError or OSError and the put of
    [None] succeeds, the worker leaves [None] as the one item on the
    channel and ends by [sys.exit(1)]: status 1. *)
Theorem worker_oserror_leaves_None w function args kwargs e d :
  py_call w function args kwargs = Raises e d ->
  is_IOError_OSError e = true ->
  put_raises w PNone = None ->
  written (run_worker w function args kwargs) = [PNone]
  /\ fst (run_worker w function args kwargs) = Exc (SystemExit 1)
  /\ exit_status (fst (run_worker w function args kwargs)) = Some 1%Q
  /\ worker_puts w function args kwargs = [(d, PNone)].
Proof.
  intros Hcall Hos Hput. unfold worker_puts.
  rewrite worker_run_shape. unfold worker_attempt, put_item, written.
  rewrite Hcall, Hos. cbn [py_and py_or py_truth is_not_None call_end].
  rewrite Hput. repeat split.
Qed.

(** X3 on the target that raises IOError. *)
Lemma worker_oserror_leaves_None_witness :
  py_call posix_world (PFunction "read_config") (PList []) (PDict [])
    = Raises IOError_example 1
  /\ is_IOError_OSError IOError_example = true
  /\ put_raises posix_world PNone = None
  /\ worker_puts posix_world (PFunction "read_config") (PList []) (PDict [])
     = [(1%Q, PNone)].
Proof.
  split; [reflexivity|]. split; [reflexivity|]. split; [reflexivity|].
  exact (proj2 (proj2 (proj2 (worker_oserror_leaves_None posix_world
           (PFunction "read_config") (PList []) (PDict []) IOError_example 1
           eq_refl eq_refl eq_refl)))).
Defined.

(** X4.  When the first [queue.put] of the worker raises an IOError,
    OSError or EOFError, the worker makes no other put, nothing reaches
    the channel, and the worker ends by [sys.exit(1)], whatever its target
    did. *)
Theorem worker_broken_channel_exits w function args kwargs item p :
  hd_error (put_calls (run_worker w function args kwargs)) = Some item ->
  put_raises w item = Some p ->
  is_IOError_OSError_EOFError p = true ->
  put_calls (run_worker w function args kwargs) = [item]
  /\ written (run_worker w function args kwargs) = []
  /\ fst (run_worker w function args kwargs) = Exc (SystemExit 1)
  /\ exit_status (fst (run_worker w function args kwargs)) = Some 1%Q
  /\ worker_puts w function args kwargs = [].
Proof.
  unfold worker_puts. rewrite worker_run_shape. unfold put_calls, written.
  destruct (worker_attempt w function args kwargs) as [[pending err] res].
  intros Hhd Hput Hio.
  assert (Hitem : pending = Stuck \/ item = put_item err res).
  { destruct pending; auto; right; revert Hhd; cbv zeta;
      destruct (put_raises w (put_item err res)) as [p0|];
      try destruct (is_IOError_OSError_EOFError p0);
      try destruct (is_PicklingError p0);
      cbn; congruence. }
  destruct Hitem as [-> | ->]; [discriminate|].
  destruct pending; [| |discriminate].
  all: cbv zeta; rewrite Hput, Hio; cbn.
  all: destruct (call_end _); repeat split.
Qed.

(** X4 on the world whose channel is broken. *)
Lemma worker_broken_channel_exits_witness :
  hd_error (put_calls (run_worker broken_pipe_world (PFunction "answer")
                         (PList []) (PDict []))) = Some (PNum 42)
  /\ put_raises broken_pipe_world (PNum 42) = Some IOError_example
  /\ is_IOError_OSError_EOFError IOError_example = true
  /\ written (run_worker broken_pipe_world (PFunction "answer") (PList []) (PDict []))
     = []
  /\ exit_status (fst (run_worker broken_pipe_world (PFunction "answer")
                         (PList []) (PDict []))) = Some 1%Q.
Proof.
  split; [reflexivity|]. split; [reflexivity|]. split; [reflexivity|].
  pose proof (worker_broken_channel_exits broken_pipe_world (PFunction "answer")
                (PList []) (PDict []) (PNum 42) IOError_example
                eq_refl eq_refl eq_refl) as (_ & Hw & _ & Hs & _).
  split; [exact Hw | exact Hs].
Defined.

(** X5.  When the target raises an exception that derives from Exception
    and is not an IOError or OSError, but has a false truth value, the
    worker puts [None], the value of [results], in its place: with that
    put succeeding, [None] is the one item on the channel and the worker
    returns as after a success. *)
Theorem worker_falsy_exception_is_lost w function args kwargs e d :
  py_call w function args kwargs = Raises e d ->
  is_IOError_OSError e = false ->
  is_Exception e = true ->
  exn_truth e = false ->
  put_raises w PNone = None ->
  written (run_worker w function args kwargs) = [PNone]
  /\ fst (run_worker w function args kwargs) = Val tt
  /\ error (snd (run_worker w function args kwargs))
     = PExc (set_traceback e (format_exc w e)).
Proof.
  intros Hcall Hos Hexc Hfalse Hput.
  rewrite worker_run_shape. unfold worker_attempt, put_item, written.
  rewrite Hcall, Hos, Hexc. destruct e as [k c a t tb]. cbn in Hfalse. subst t.
  cbn [py_and py_or py_truth is_not_None set_traceback exn_truth].
  rewrite Hput. repeat split.
Qed.

(** X5 on the target that raises the falsy exception [Quiet]. *)
Lemma worker_falsy_exception_is_lost_witness :
  py_call posix_world (PFunction "quiet") (PList []) (PDict []) = Raises Quiet 2
  /\ is_IOError_OSError Quiet = false
  /\ is_Exception Quiet = true
  /\ exn_truth Quiet = false
  /\ put_raises posix_world PNone = None
  /\ written (run_worker posix_world (PFunction "quiet") (PList []) (PDict []))
     = [PNone].
Proof.
  split; [reflexivity|]. split; [reflexivity|]. split; [reflexivity|]. split; [reflexivity|]. split; [reflexivity|].
  exact (proj1 (worker_falsy_exception_is_lost posix_world (PFunction "quiet")
           (PList []) (PDict []) Quiet 2 eq_refl eq_refl eq_refl eq_refl eq_refl)).
Defined.

(** X6.  When the target raises an exception that does not derive from
    Exception (SystemExit, KeyboardInterrupt) and the put of [None]
    succeeds, the worker leaves [None] as the one item on the channel and
    the exception leaves the worker. *)
Theorem worker_system_exit_leaves_None w function args kwargs e d :
  py_call w function args kwargs = Raises e d ->
  is_Exception e = false ->
  put_raises w PNone = None ->
  written (run_worker w function args kwargs) = [PNone]
  /\ fst (run_worker w function args kwargs) = Exc e.
Proof.
  intros Hcall Hexc Hput.
  assert (Hos : is_IOError_OSError e = false).
  { revert Hexc. unfold is_Exception, is_IOError_OSError.
    destruct (exn_kind_of e); congruence. }
  rewrite worker_run_shape. unfold worker_attempt, put_item, written.
  rewrite Hcall, Hos, Hexc. cbn [py_and py_or py_truth is_not_None].
  rewrite Hput. repeat split.
Qed.

(** X6 on the target that is interrupted. *)
Lemma worker_system_exit_leaves_None_witness :
  py_call posix_world (PFunction "interrupted") (PList []) (PDict [])
    = Raises KeyboardInterrupt 1
  /\ is_Exception KeyboardInterrupt = false
  /\ put_raises posix_world PNone = None
  /\ written (run_worker posix_world (PFunction "interrupted") (PList []) (PDict []))
     = [PNone]
  /\ fst (run_worker posix_world (PFunction "interrupted") (PList []) (PDict []))
     = Exc KeyboardInterrupt.
Proof.
  split; [reflexivity|]. split; [reflexivity|]. split; [reflexivity|].
  exact (worker_system_exit_leaves_None posix_world (PFunction "interrupted")
           (PList []) (PDict []) KeyboardInterrupt 1 eq_refl eq_refl eq_refl).
Defined.

(** ** task_manager, in every case *)

(** A run whose wait does not end, or ends with an exception other than
    [Empty], stops there. *)
Lemma run_manager_not_finalized w others task timeout :
  resolved_timeout task = Val timeout ->
  finalization w others task = None ->
  run_manager w others task =
    (match queue_get timeout (awaited_channel w others task) with
     | Exc e => Exc e
     | _ => Stuck
     end,
     {| the_task := task; trace := prelude w task timeout;
        handed_back := None |}).
Proof.
  unfold finalization, resolved_timeout, awaited_channel, prelude,
    spawned_function.
  intros Ht. rewrite Ht. revert Ht.
  unfold run_manager, task_manager, task_set, try_except, hand_to_callback,
    emit, lift_res, get_state, modify, ret, bind.
  cbn [the_task trace handed_back fst snd].
  destruct (py_gt_0 (ProcessTask.timeout task)) as [positive|e|]; try discriminate.
  intros [= <-].
  destruct (String.eqb (os_name w) "nt");
    cbn [fst snd the_task trace handed_back app].
  all: destruct (queue_get _ _) as [item|e|]; try discriminate;
    cbn [find_handler]; [|reflexivity].
  all: destruct (is_Empty e); [discriminate|reflexivity].
Qed.

(** A run whose timeout does not compare with 0 stops before anything. *)
Lemma run_manager_unresolved w others task e :
  resolved_timeout task = Exc e ->
  run_manager w others task
  = (Exc e, {| the_task := task; trace := []; handed_back := None |}).
Proof.
  unfold resolved_timeout, run_manager, task_manager, lift_res, get_state, bind.
  cbn [the_task trace handed_back fst snd].
  destruct (py_gt_0 (ProcessTask.timeout task)); try discriminate.
  intros [= <-]. reflexivity.
Qed.

Lemma resolved_timeout_not_Stuck task : resolved_timeout task <> Stuck.
Proof.
  unfold resolved_timeout, py_gt_0.
  destruct (ProcessTask.timeout task); discriminate.
Qed.

Lemma same_but_outcome_set v task :
  same_but_outcome task (ProcessTask._set v task).
Proof.
  unfold same_but_outcome, ProcessTask._set.
  destruct (ProcessTask.outcome task); cbn; repeat split.
Qed.

Lemma callback_step_handed_back w task tr :
  handed_back (snd (callback_step w task tr))
  = if is_not_None (ProcessTask._callback task)
    then Some (snd (call_callback w (ProcessTask._callback task) task))
    else None.
Proof.
  unfold callback_step. cbv zeta.
  destruct (is_not_None _); [|reflexivity].
  destruct (call_callback w _ _) as [[[]|e|] left]; cbn [fst snd];
    [| destruct (is_Exception e) |]; reflexivity.
Qed.

(** X7.  However a run of the manager ends, what its own statements
    write of the task is the outcome at most: number, function,
    arguments, callback, timeout, cancellation flag and queue are as they
    were.  The task object is handed to the callback, though, and is at
    the end what the callback made of it: when the wait has ended with
    [v] and there is a callback, the task at the end is what the callback
    left of [task._set(v)]; without a callback it is [task._set(v)]; and
    when the manager does not get past its wait it is the task as it
    was. *)
Theorem manager_writes_outcome_only w others task :
  same_but_outcome task (the_task (snd (run_manager w others task)))
  /\ task_at_end (snd (run_manager w others task))
     = match finalization w others task with
       | Some v =>
           if is_not_None (ProcessTask._callback task)
           then snd (call_callback w (ProcessTask._callback task)
                       (ProcessTask._set v task))
           else ProcessTask._set v task
       | None => task
       end.
Proof.
  unfold task_at_end.
  destruct (resolved_timeout task) as [timeout|e|] eqn:Ht.
  - destruct (finalization w others task) as [v|] eqn:Hfin.
    + rewrite (run_manager_finalized _ _ _ _ _ Ht Hfin), callback_step_task,
        callback_step_handed_back, callback_of_set.
      split; [apply same_but_outcome_set|].
      destruct (is_not_None _); reflexivity.
    + rewrite (run_manager_not_finalized _ _ _ _ Ht Hfin).
      cbn. unfold same_but_outcome. repeat split.
  - assert (Hfin : finalization w others task = None).
    { unfold finalization. rewrite Ht. reflexivity. }
    rewrite (run_manager_unresolved _ _ _ _ Ht), Hfin.
    cbn. unfold same_but_outcome. repeat split.
  - exfalso. exact (resolved_timeout_not_Stuck _ Ht).
Qed.

(** A callback that sets the cancellation flag of the task it is given,
    and then raises ValueError: the exception is caught, and the task is
    left cancelled, with the outcome the manager set. *)
Example callback_rewrites_the_task :
  let s := snd (run_manager posix_world []
                  (example_task "answer" (PFunction "cancel_and_fail") (PNum 0))) in
  ProcessTask._cancelled (example_task "answer" (PFunction "cancel_and_fail") (PNum 0))
    = false
  /\ ProcessTask._cancelled (the_task s) = false
  /\ ProcessTask._cancelled (task_at_end s) = true
  /\ ProcessTask.outcome (task_at_end s) = Some (PNum 42).
Proof. repeat split; reflexivity. Qed.

(** X8.  A run of the manager spawns one worker and no more: on the
    function and arguments of the task where [os.name] is not ['nt'],
    with no call of [dump_function]; after one call of [dump_function]
    where it is.  A run whose timeout does not compare with 0 spawns no
    worker at all. *)
Theorem manager_spawns_one_worker w others task :
  match resolved_timeout task with
  | Val _ =>
      List.filter is_EvSpawn_or_EvDump (trace (snd (run_manager w others task)))
      = if String.eqb (os_name w) "nt"
        then [EvDump (ProcessTask._function task) (ProcessTask._args task);
              EvSpawn (ProcessTask._queue task)
                (fst (dump_function w (ProcessTask._function task)
                                      (ProcessTask._args task)))
                (ProcessTask._args task) (ProcessTask._kwargs task)]
        else [EvSpawn (ProcessTask._queue task) (ProcessTask._function task)
                (ProcessTask._args task) (ProcessTask._kwargs task)]
  | _ => trace (snd (run_manager w others task)) = []
  end.
Proof.
  destruct (resolved_timeout task) as [timeout|e|] eqn:Ht.
  - assert (Hpre : List.filter is_EvSpawn_or_EvDump (prelude w task timeout)
      = if String.eqb (os_name w) "nt"
        then [EvDump (ProcessTask._function task) (ProcessTask._args task);
              EvSpawn (ProcessTask._queue task)
                (fst (dump_function w (ProcessTask._function task)
                                      (ProcessTask._args task)))
                (ProcessTask._args task) (ProcessTask._kwargs task)]
        else [EvSpawn (ProcessTask._queue task) (ProcessTask._function task)
                (ProcessTask._args task) (ProcessTask._kwargs task)]).
    { unfold prelude, spawned_function.
      destruct (String.eqb (os_name w) "nt"); reflexivity. }
    destruct (finalization w others task) as [v|] eqn:Hfin.
    + rewrite (run_manager_finalized _ _ _ _ _ Ht Hfin). unfold callback_step.
      cbv zeta.
      destruct (is_not_None _);
        [destruct (call_callback w _ _) as [[[]|e|] left]; cbn [fst snd];
         [|destruct (is_Exception e)|]|].
      all: cbn [snd trace]; rewrite ?List.filter_app, Hpre; cbn [List.filter is_EvSpawn_or_EvDump];
        rewrite ?app_nil_r; reflexivity.
    + rewrite (run_manager_not_finalized _ _ _ _ Ht Hfin). exact Hpre.
  - rewrite (run_manager_unresolved _ _ _ _ Ht). reflexivity.
  - exfalso. exact (resolved_timeout_not_Stuck _ Ht).
Qed.

Lemma finalization_fresh_outcome w others task v :
  ProcessTask.outcome task = None ->
  finalization w others task = Some v ->
  ProcessTask.outcome (the_task (snd (run_manager w others task))) = Some v.
Proof.
  intros Hfresh Hfin.
  destruct (run_manager_past_wait _ _ _ _ Hfin) as (pre & post & _ & -> & _).
  apply outcome_of_set_fresh, Hfresh.
Qed.

(** X9.  A fresh task with the timeout [q > 0], whose worker (spawned
    with the function the manager spawns it with) puts the one item [v],
    which is on the channel [a] seconds into the wait of the manager,
    nobody else putting: when [a < q] the outcome is [v]; when [q < a] the
    outcome is the TimeoutError that carries [q], and [v] is never the
    outcome.  The time [a] is that of the item on the channel, whatever
    went into it: the start of the process, the run of the function, the
    transport. *)
Theorem manager_deadline_decides w task q v a :
  ProcessTask.timeout task = PNum q ->
  (0 < q)%Q ->
  ProcessTask.outcome task = None ->
  worker_puts w (spawned_function w task) (ProcessTask._args task)
              (ProcessTask._kwargs task) = [(a, v)] ->
  ((a < q)%Q ->
     ProcessTask.outcome (the_task (snd (run_manager w [] task))) = Some v)
  /\ ((q < a)%Q ->
        ProcessTask.outcome (the_task (snd (run_manager w [] task)))
        = Some (PExc (TimeoutError "Task Timeout" (PNum q)))).
Proof.
  intros Hq Hpos Hfresh Hputs.
  pose proof (resolved_timeout_number _ _ Hq) as Ht.
  apply Qlt_bool_true in Hpos. rewrite Hpos in Ht.
  assert (Hchan : awaited_channel w [] task = [(a, v)]).
  { unfold awaited_channel. cbn [app]. exact Hputs. }
  split; intros Hd; apply finalization_fresh_outcome; try exact Hfresh.
  - apply finalization_item. unfold awaited. rewrite Ht, Hchan.
    cbn [queue_get py_seconds earliest].
    apply Qlt_le_weak, Qle_bool_iff in Hd. rewrite Hd. reflexivity.
  - rewrite <- Hq. apply (finalization_Empty _ _ _ Empty); [|reflexivity].
    unfold awaited. rewrite Ht, Hchan. cbn [queue_get py_seconds earliest].
    destruct (Qle_bool a q) eqn:E; [|reflexivity].
    apply Qle_bool_iff in E. exfalso. exact (Qlt_not_le _ _ Hd E).
Qed.

(** X9 on the worker whose item 42 is on the channel after 3 seconds, with
    the timeouts 5 and 1/2. *)
Lemma manager_deadline_decides_witness :
  (ProcessTask.timeout (example_task "answer" PNone (PNum 5)) = PNum 5
   /\ (0 < 5)%Q
   /\ ProcessTask.outcome (example_task "answer" PNone (PNum 5)) = None
   /\ worker_puts posix_world
        (spawned_function posix_world (example_task "answer" PNone (PNum 5)))
        (PList []) (PDict [])
      = [(3%Q, PNum 42)]
   /\ (3 < 5)%Q
   /\ ProcessTask.outcome (the_task (snd (run_manager posix_world []
         (example_task "answer" PNone (PNum 5))))) = Some (PNum 42))
  /\ ((1 # 2 < 3)%Q
      /\ ProcessTask.outcome (the_task (snd (run_manager posix_world []
            (example_task "answer" PNone (PNum (1 # 2))))))
         = Some (PExc (TimeoutError "Task Timeout" (PNum (1 # 2))))).
Proof.
  split.
  - split; [reflexivity|]. split; [reflexivity|]. split; [reflexivity|].
    split; [reflexivity|]. split; [reflexivity|].
    exact (proj1 (manager_deadline_decides posix_world
             (example_task "answer" PNone (PNum 5)) 5 (PNum 42) 3
             eq_refl eq_refl eq_refl eq_refl) eq_refl).
  - split; [reflexivity|].
    exact (proj2 (manager_deadline_decides posix_world
             (example_task "answer" PNone (PNum (1 # 2))) (1 # 2) (PNum 42) 3
             eq_refl eq_refl eq_refl eq_refl) eq_refl).
Defined.

(** X10.  Where [os.name] is not ['nt'], a fresh task without a bound on
    its wait (its timeout is a number not above 0), whose target raises an
    IOError or OSError, after any time [d] (the put of [None] succeeding,
    nobody else putting), gets past its wait with the item [None] and is
    finalized with the outcome [None], as if its target had returned
    [None]: the exception is lost. *)
Theorem manager_oserror_task_gets_None w task q e d :
  String.eqb (os_name w) "nt" = false ->
  ProcessTask.outcome task = None ->
  ProcessTask.timeout task = PNum q ->
  Qlt_bool 0 q = false ->
  py_call w (ProcessTask._function task) (ProcessTask._args task)
          (ProcessTask._kwargs task) = Raises e d ->
  is_IOError_OSError e = true ->
  put_raises w PNone = None ->
  finalization w [] task = Some PNone
  /\ ProcessTask.outcome (the_task (snd (run_manager w [] task))) = Some PNone.
Proof.
  intros Hos Hfresh Hq Hle Hcall Hio Hput.
  pose proof (resolved_timeout_number _ _ Hq) as Ht. rewrite Hle in Ht.
  assert (Hfin : finalization w [] task = Some PNone).
  { apply finalization_item. unfold awaited, awaited_channel, spawned_function.
    rewrite Ht, Hos. cbn [app].
    rewrite (worker_puts_oserror _ _ _ _ _ _ Hcall Hio Hput). reflexivity. }
  split; [exact Hfin | exact (finalization_fresh_outcome _ _ _ _ Hfresh Hfin)].
Qed.

(** X10 on the target that raises IOError after 1 second, without
    timeout. *)
Lemma manager_oserror_task_gets_None_witness :
  String.eqb (os_name posix_world) "nt" = false
  /\ ProcessTask.outcome (example_task "read_config" PNone (PNum 0)) = None
  /\ py_call posix_world (PFunction "read_config") (PList []) (PDict [])
     = Raises IOError_example 1
  /\ is_IOError_OSError IOError_example = true
  /\ ProcessTask.outcome (the_task (snd (run_manager posix_world []
        (example_task "read_config" PNone (PNum 0))))) = Some PNone.
Proof.
  split; [reflexivity|]. split; [reflexivity|]. split; [reflexivity|].
  split; [reflexivity|].
  exact (proj2 (manager_oserror_task_gets_None posix_world
            (example_task "read_config" PNone (PNum 0)) 0
            IOError_example 1 eq_refl eq_refl eq_refl eq_refl eq_refl eq_refl
            eq_refl)).
Defined.

(** X11.  A task whose timeout is a number not above 0, whose worker
    leaves nothing on the channel (its target never ends, or its put
    fails and it exits) and on whose channel nobody else puts: the
    manager never gets past its wait.  It sets no outcome, does not
    terminate or join the worker and calls no callback. *)
Theorem manager_waits_forever w task q :
  ProcessTask.timeout task = PNum q ->
  Qlt_bool 0 q = false ->
  worker_puts w (spawned_function w task) (ProcessTask._args task)
              (ProcessTask._kwargs task) = [] ->
  fst (run_manager w [] task) = Stuck
  /\ the_task (snd (run_manager w [] task)) = task
  /\ trace (snd (run_manager w [] task)) = prelude w task PNone
  /\ (forall ev, In ev (trace (snd (run_manager w [] task))) ->
        is_EvSpawn_or_EvDump ev = true \/ ev = EvGet (ProcessTask._queue task) PNone).
Proof.
  intros Hq Hle Hputs.
  pose proof (resolved_timeout_number _ _ Hq) as Ht. rewrite Hle in Ht.
  assert (Hfin : finalization w [] task = None).
  { unfold finalization, awaited_channel. rewrite Ht, Hputs. reflexivity. }
  rewrite (run_manager_not_finalized _ _ _ _ Ht Hfin).
  unfold awaited_channel. rewrite Hputs. cbn [app queue_get earliest fst snd the_task trace].
  repeat split. unfold prelude.
  destruct (String.eqb (os_name w) "nt"); cbn; intuition (subst; auto).
Qed.

(** X11 on a task without timeout on a broken channel, and on one whose
    target never ends. *)
Lemma manager_waits_forever_witness :
  (ProcessTask.timeout (example_task "answer" (PFunction "notify") (PNum 0)) = PNum 0
   /\ worker_puts broken_pipe_world (PFunction "answer") (PList []) (PDict []) = []
   /\ fst (run_manager broken_pipe_world []
             (example_task "answer" (PFunction "notify") (PNum 0))) = Stuck)
  /\ (worker_puts posix_world (PFunction "forever") (PList []) (PDict []) = []
      /\ fst (run_manager posix_world []
                (example_task "forever" (PFunction "notify") (PNum 0))) = Stuck).
Proof.
  split.
  - split; [reflexivity|]. split; [reflexivity|].
    exact (proj1 (manager_waits_forever broken_pipe_world
             (example_task "answer" (PFunction "notify") (PNum 0)) 0
             eq_refl eq_refl eq_refl)).
  - split; [reflexivity|].
    exact (proj1 (manager_waits_forever posix_world
             (example_task "forever" (PFunction "notify") (PNum 0)) 0
             eq_refl eq_refl eq_refl)).
Defined.

(** X12.  An item that is on the channel before the cancellation wins:
    for a fresh task whose worker (spawned with the function the manager
    spawns it with) puts the one item [v], which is on the channel [a]
    seconds into the wait and within it, a TaskCancelled item put at a
    time [c > a] is not received, and the outcome is [v]. *)
Theorem manager_result_before_cancel_wins w task timeout v a c :
  ProcessTask.outcome task = None ->
  resolved_timeout task = Val timeout ->
  worker_puts w (spawned_function w task) (ProcessTask._args task)
              (ProcessTask._kwargs task) = [(a, v)] ->
  (a < c)%Q ->
  match py_seconds timeout with Some t => (a <= t)%Q | None => True end ->
  ProcessTask.outcome
    (the_task (snd (run_manager w [(c, PExc (TaskCancelled "Task Cancelled"))] task)))
  = Some v.
Proof.
  intros Hfresh Ht Hputs Hac Hin.
  apply finalization_fresh_outcome; [exact Hfresh|].
  apply finalization_item. unfold awaited, awaited_channel. rewrite Ht, Hputs.
  apply (queue_get_first _ _ a);
    [| exact (resolved_timeout_seconds _ _ Ht) | exact Hin].
  cbn [app earliest]. destruct (Qle_bool c a) eqn:E; [|reflexivity].
  apply Qle_bool_iff in E. exfalso. exact (Qlt_not_le _ _ Hac E).
Qed.

(** X12 on the worker whose item 42 is on the channel after 3 seconds,
    cancelled after 4 seconds. *)
Lemma manager_result_before_cancel_wins_witness :
  ProcessTask.outcome (example_task "answer" PNone (PNum 0)) = None
  /\ resolved_timeout (example_task "answer" PNone (PNum 0)) = Val PNone
  /\ worker_puts posix_world
       (spawned_function posix_world (example_task "answer" PNone (PNum 0)))
       (PList []) (PDict [])
     = [(3%Q, PNum 42)]
  /\ (3 < 4)%Q
  /\ ProcessTask.outcome
       (the_task (snd (run_manager posix_world
          [(4%Q, PExc (TaskCancelled "Task Cancelled"))]
          (example_task "answer" PNone (PNum 0)))))
     = Some (PNum 42).
Proof.
  split; [reflexivity|]. split; [reflexivity|]. split; [reflexivity|].
  split; [reflexivity|].
  exact (manager_result_before_cancel_wins posix_world
           (example_task "answer" PNone (PNum 0)) PNone (PNum 42) 3 4
           eq_refl eq_refl eq_refl eq_refl I).
Defined.



(** X14.  Without a callback ([task._callback] is [None]) a manager
    whose wait has ended with the outcome [v] calls nothing and prints
    nothing: it returns, and its trace ends with [task._set(v)],
    terminate, join. *)
Theorem manager_without_callback w others task v :
  finalization w others task = Some v ->
  ProcessTask._callback task = PNone ->
  fst (run_manager w others task) = Val tt
  /\ callback_calls (trace (snd (run_manager w others task))) = 0
  /\ exists pre,
       trace (snd (run_manager w others task))
       = pre ++ [EvSet v; EvTerminate; EvJoin]
       /\ forall ev, In ev pre ->
            is_EvSpawn_or_EvDump ev = true \/ exists t, ev = EvGet (ProcessTask._queue task) t.
Proof.
  intros Hfin Hcb. destruct (finalization_resolved _ _ _ _ Hfin) as [timeout Ht].
  rewrite (run_manager_finalized _ _ _ _ _ Ht Hfin).
  unfold callback_step. rewrite callback_of_set, Hcb. cbn [is_not_None fst snd trace].
  split; [reflexivity|]. split.
  - unfold callback_calls, prelude.
    destruct (String.eqb (os_name w) "nt"); reflexivity.
  - exists (prelude w task timeout). split; [reflexivity|].
    unfold prelude. destruct (String.eqb (os_name w) "nt"); cbn;
      intuition (subst; eauto).
Qed.

(** X14 on a task without callback. *)
Lemma manager_without_callback_witness :
  finalization posix_world [] (example_task "answer" PNone (PNum 0)) = Some (PNum 42)
  /\ ProcessTask._callback (example_task "answer" PNone (PNum 0)) = PNone
  /\ fst (run_manager posix_world [] (example_task "answer" PNone (PNum 0))) = Val tt
  /\ callback_calls (trace (snd (run_manager posix_world []
        (example_task "answer" PNone (PNum 0))))) = 0.
Proof.
  split; [reflexivity|]. split; [reflexivity|].
  pose proof (manager_without_callback posix_world []
                (example_task "answer" PNone (PNum 0)) (PNum 42) eq_refl eq_refl)
    as (Hret & Hcalls & _).
  split; [exact Hret | exact Hcalls].
Defined.

(** ** The factory, in every case *)

(** [TaskDecoratorWrapper(function, timeout, callback)]: a count object is
    made, and [update_wrapper] has the last word on the attributes. *)
Lemma init_run function timeout callback it :
  TaskDecoratorWrapper.__init__ function timeout callback it
  = (Val (TaskDecoratorWrapper.update_wrapper
            {| TaskDecoratorWrapper._counter := PCount (length (counts it));
               TaskDecoratorWrapper._function := function;
               TaskDecoratorWrapper._ismethod := PBool false;
               TaskDecoratorWrapper.timeout := timeout;
               TaskDecoratorWrapper.callback := callback |}
            function),
     {| _task_counter := _task_counter it; counts := counts it ++ [0];
        queues := queues it; threads := threads it |}).
Proof. reflexivity. Qed.

Lemma updated_without key function old :
  has_no_attribute key function = true ->
  TaskDecoratorWrapper.updated key (function_dict function) old = old.
Proof.
  unfold has_no_attribute, TaskDecoratorWrapper.updated.
  destruct (dict_get key (function_dict function)); [discriminate|reflexivity].
Qed.

(** A function without any of the five attributes leaves the wrapper as
    [__init__] set it. *)
Lemma update_wrapper_plain self function :
  no_wrapper_attribute function = true ->
  TaskDecoratorWrapper.update_wrapper self function = self.
Proof.
  unfold no_wrapper_attribute. intros H.
  apply andb_prop in H as [H H5]. apply andb_prop in H as [H H4].
  apply andb_prop in H as [H H3]. apply andb_prop in H as [H1 H2].
  unfold TaskDecoratorWrapper.update_wrapper.
  rewrite !updated_without by assumption. destruct self; reflexivity.
Qed.

(** A call of a wrapper whose counter is a count object, which is at
    [n]: the task has the number [n], and the count object moves on. *)
Lemma wrapper_call_run self it args kwargs r n :
  TaskDecoratorWrapper._counter self = PCount r ->
  counts it !! r = Some n ->
  TaskDecoratorWrapper.__call__ args kwargs (self, it)
  = (Val (ProcessTask.__init__ n
            (TaskDecoratorWrapper._function self) (PList args) (PDict kwargs)
            (TaskDecoratorWrapper.callback self)
            (TaskDecoratorWrapper.timeout self) PNone (queues it)),
     (self,
      {| _task_counter := _task_counter it; counts := <[r := S n]> (counts it);
         queues := S (queues it);
         threads := threads it ++
           [ProcessTask.__init__ n
              (TaskDecoratorWrapper._function self) (PList args) (PDict kwargs)
              (TaskDecoratorWrapper.callback self)
              (TaskDecoratorWrapper.timeout self) PNone (queues it)] |})).
Proof.
  intros Hc Hn.
  unfold TaskDecoratorWrapper.__call__, TaskDecoratorWrapper.on_interpreter,
    new_SimpleQueue, next, start_task_manager, get_state, modify, ret, bind.
  cbn [fst snd counts queues threads _task_counter]. rewrite Hc. cbn [counts].
  rewrite Hn. reflexivity.
Qed.

(** A call of a wrapper, whatever its counter holds: the queue is made
    first, in every case; a task that is made is fresh, has that queue,
    and its manager is started.  The wrapper object itself is not
    written. *)
Lemma wrapper_call_effect self it args kwargs :
  match TaskDecoratorWrapper.__call__ args kwargs (self, it) with
  | (Val t, (self', it')) =>
      self' = self
      /\ queues it' = S (queues it)
      /\ threads it' = threads it ++ [t]
      /\ _task_counter it' = _task_counter it
      /\ length (counts it') = length (counts it)
      /\ ProcessTask._queue t = queues it
      /\ ProcessTask._cancelled t = false
      /\ ProcessTask.outcome t = None
  | (_, (self', it')) =>
      self' = self
      /\ it' = {| _task_counter := _task_counter it; counts := counts it;
                  queues := S (queues it); threads := threads it |}
  end.
Proof.
  unfold TaskDecoratorWrapper.__call__, TaskDecoratorWrapper.on_interpreter,
    new_SimpleQueue, next, start_task_manager, get_state, modify, ret, bind.
  cbn [fst snd counts queues threads _task_counter].
  destruct (TaskDecoratorWrapper._counter self) as [ | | | | | | | | | |r| ];
    cbn [fst snd]; try (split; reflexivity).
  cbn [counts]. destruct (counts it !! r) as [n|]; cbn [fst snd];
    [|split; reflexivity].
  cbn [queues threads _task_counter counts ProcessTask._queue
       ProcessTask._cancelled ProcessTask.outcome ProcessTask.__init__].
  rewrite length_insert. repeat split.
Qed.

(** What a call of [task] does to the interpreter, and when: in the form
    that starts a task it makes one queue, takes one number of the global
    counter and starts one manager, on the task it returns; in the form
    that makes a wrapper it makes one count object; in any other form, and
    when it raises, it leaves the interpreter as it was. *)
Lemma task_effect args (kwargs : gmap string pyval) it :
  match task args kwargs it with
  | (Val (Started t), it') =>
      it' = {| _task_counter := S (_task_counter it); counts := counts it;
               queues := S (queues it); threads := threads it ++ [t] |}
      /\ starts_target (OpTask args kwargs) = true
      /\ makes_wrapper (OpTask args kwargs) = false
      /\ ProcessTask.number t = _task_counter it
      /\ ProcessTask._queue t = queues it
      /\ ProcessTask._cancelled t = false
      /\ ProcessTask.outcome t = None
  | (Val (Decorated self), it') =>
      it' = {| _task_counter := _task_counter it; counts := counts it ++ [0];
               queues := queues it; threads := threads it |}
      /\ starts_target (OpTask args kwargs) = false
      /\ makes_wrapper (OpTask args kwargs) = true
      /\ exists a0,
           args !! 0%nat = Some a0
           /\ self = TaskDecoratorWrapper.update_wrapper
                {| TaskDecoratorWrapper._counter := PCount (length (counts it));
                   TaskDecoratorWrapper._function := a0;
                   TaskDecoratorWrapper._ismethod := PBool false;
                   TaskDecoratorWrapper.timeout := PNum 0;
                   TaskDecoratorWrapper.callback := PNone |} a0
  | (_, it') =>
      it' = it
      /\ starts_target (OpTask args kwargs) = false
      /\ makes_wrapper (OpTask args kwargs) = false
  end.
Proof.
  destruct (decide (kwargs = ∅)) as [->|Hne].
  - unfold task, starts_target, makes_wrapper.
    rewrite map_size_empty, lookup_empty.
    destruct args as [|a0 rest]; [cbn; auto|].
    cbn [length Nat.ltb Nat.leb Nat.eqb andb lookup list_lookup].
    destruct (is_function_or_method a0) eqn:Hf; cbn [negb]; [|cbn; auto].
    unfold bind, ret. rewrite init_run. cbn [fst snd].
    split; [reflexivity|]. split; [reflexivity|]. split; [reflexivity|].
    exists a0. split; reflexivity.
  - rewrite (task_keywords _ _ Hne). cbv zeta.
    assert (Hsize : (size kwargs =? 0)%nat = false).
    { apply Nat.eqb_neq. intros H. apply map_size_empty_iff in H. auto. }
    assert (Hmake : makes_wrapper (OpTask args kwargs) = false).
    { unfold makes_wrapper. destruct args; [reflexivity|]. rewrite Hsize.
      reflexivity. }
    assert (Hstart : starts_target (OpTask args kwargs)
      = is_not_None (match kwargs !! "target" with Some v => v | None => PNone end)).
    { unfold starts_target. destruct (kwargs !! "target"); reflexivity. }
    rewrite Hmake, Hstart.
    destruct (is_not_None _); [|cbn; auto].
    unfold bind, new_SimpleQueue, next_task_counter, start_task_manager,
      modify, ret.
    cbn [_task_counter counts queues threads fst snd]. repeat split.
Qed.

(** X15.  With a target that is not [None], [task] returns a fresh task
    (not cancelled, without outcome) on the target, with the values given
    under [args], [kwargs], [callback] and [timeout], or else an empty
    list, an empty dictionary, no callback and the timeout 0; its number
    is that of the global counter, its queue is a new one, and the one
    manager that is started is started on it.  No count object is made or
    moved. *)
Theorem task_target_form args (kwargs : gmap string pyval) it target :
  kwargs !! "target" = Some target ->
  is_not_None target = true ->
  task args kwargs it =
    (Val (Started
       (ProcessTask.__init__ (_task_counter it) target
          (match kwargs !! "args" with Some v => v | None => PList [] end)
          (match kwargs !! "kwargs" with Some v => v | None => PDict [] end)
          (match kwargs !! "callback" with Some v => v | None => PNone end)
          (match kwargs !! "timeout" with Some v => v | None => PNum 0 end)
          PNone (queues it))),
     {| _task_counter := S (_task_counter it); counts := counts it;
        queues := S (queues it);
        threads := threads it ++
          [ProcessTask.__init__ (_task_counter it) target
             (match kwargs !! "args" with Some v => v | None => PList [] end)
             (match kwargs !! "kwargs" with Some v => v | None => PDict [] end)
             (match kwargs !! "callback" with Some v => v | None => PNone end)
             (match kwargs !! "timeout" with Some v => v | None => PNum 0 end)
             PNone (queues it)] |}).
Proof.
  intros Htarget Hnot.
  assert (Hne : kwargs <> ∅) by (intros ->; rewrite lookup_empty in Htarget; discriminate).
  rewrite (task_keywords _ _ Hne). cbv zeta. rewrite Htarget, Hnot. reflexivity.
Qed.

(** X15 on [task(target=answer, timeout=3)], with a positional argument
    that plays no part. *)
Lemma task_target_form_witness :
  ({["target" := PFunction "answer"; "timeout" := PNum 3]} : gmap string pyval)
    !! "target" = Some (PFunction "answer")
  /\ is_not_None (PFunction "answer") = true
  /\ fst (task [PNum 1] {["target" := PFunction "answer"; "timeout" := PNum 3]}
               (interp start))
     = Val (Started (ProcessTask.__init__ 0 (PFunction "answer") (PList [])
                       (PDict []) PNone (PNum 3) PNone 0)).
Proof.
  assert (Htarget :
    ({["target" := PFunction "answer"; "timeout" := PNum 3]} : gmap string pyval)
      !! "target" = Some (PFunction "answer")) by reflexivity.
  split; [exact Htarget|]. split; [reflexivity|].
  rewrite (task_target_form [PNum 1]
             {["target" := PFunction "answer"; "timeout" := PNum 3]}
             (interp start) (PFunction "answer") Htarget eq_refl).
  reflexivity.
Defined.

(** X16.  With keyword arguments and no target, [task] returns the
    decorator and leaves the interpreter as it was.  The wrapper that
    decorator makes of a function that has none of the attributes
    [_counter], [_function], [_ismethod], [timeout] and [callback] holds a
    new count object, that function, and the timeout and the callback
    given to [task] (or the timeout 0 and no callback); each task it
    makes, whenever it is called, has that function, timeout and callback,
    the arguments of the call and the number its count object is at; the
    task is fresh, and the call writes nothing of the wrapper. *)
Theorem task_decorator_configures_tasks args0 (kwargs : gmap string pyval) it :
  kwargs <> ∅ ->
  is_not_None (match kwargs !! "target" with Some v => v | None => PNone end) = false ->
  task args0 kwargs it =
    (Val (Decorator
       (match kwargs !! "timeout" with Some v => v | None => PNum 0 end)
       (match kwargs !! "callback" with Some v => v | None => PNone end)), it)
  /\ forall function it1,
       no_wrapper_attribute function = true ->
       let self :=
         {| TaskDecoratorWrapper._counter := PCount (length (counts it1));
            TaskDecoratorWrapper._function := function;
            TaskDecoratorWrapper._ismethod := PBool false;
            TaskDecoratorWrapper.timeout :=
              match kwargs !! "timeout" with Some v => v | None => PNum 0 end;
            TaskDecoratorWrapper.callback :=
              match kwargs !! "callback" with Some v => v | None => PNone end |} in
       wrapper (match kwargs !! "timeout" with Some v => v | None => PNum 0 end)
               (match kwargs !! "callback" with Some v => v | None => PNone end)
               function it1
       = (Val self,
          {| _task_counter := _task_counter it1; counts := counts it1 ++ [0];
             queues := queues it1; threads := threads it1 |})
       /\ forall n args kw it2,
            counts it2 !! length (counts it1) = Some n ->
            fst (TaskDecoratorWrapper.__call__ args kw (self, it2))
            = Val (ProcessTask.__init__ n function (PList args) (PDict kw)
                     (match kwargs !! "callback" with Some v => v | None => PNone end)
                     (match kwargs !! "timeout" with Some v => v | None => PNum 0 end)
                     PNone (queues it2))
            /\ fst (snd (TaskDecoratorWrapper.__call__ args kw (self, it2))) = self
            /\ counts (snd (snd (TaskDecoratorWrapper.__call__ args kw (self, it2))))
               = <[length (counts it1) := S n]> (counts it2).
Proof.
  intros Hne Hnone. split.
  - rewrite (task_keywords _ _ Hne). cbv zeta. rewrite Hnone. reflexivity.
  - intros function it1 Hplain self. split.
    + unfold wrapper. rewrite init_run, (update_wrapper_plain _ _ Hplain).
      reflexivity.
    + intros n args kw it2 Hn.
      rewrite (wrapper_call_run self it2 args kw _ n eq_refl Hn).
      repeat split.
Qed.

(** X16 on [task(timeout=3, callback=notify)] and the function
    [answer]. *)
Lemma task_decorator_configures_tasks_witness :
  ({["timeout" := PNum 3; "callback" := PFunction "notify"]} : gmap string pyval) <> ∅
  /\ no_wrapper_attribute (PFunction "answer") = true
  /\ task [] {["timeout" := PNum 3; "callback" := PFunction "notify"]} (interp start)
     = (Val (Decorator (PNum 3) (PFunction "notify")), interp start)
  /\ fst (wrapper (PNum 3) (PFunction "notify") (PFunction "answer") (interp start))
     = Val {| TaskDecoratorWrapper._counter := PCount 0;
              TaskDecoratorWrapper._function := PFunction "answer";
              TaskDecoratorWrapper._ismethod := PBool false;
              TaskDecoratorWrapper.timeout := PNum 3;
              TaskDecoratorWrapper.callback := PFunction "notify" |}
  /\ fst (TaskDecoratorWrapper.__call__ [PNum 7] []
            ({| TaskDecoratorWrapper._counter := PCount 0;
                TaskDecoratorWrapper._function := PFunction "answer";
                TaskDecoratorWrapper._ismethod := PBool false;
                TaskDecoratorWrapper.timeout := PNum 3;
                TaskDecoratorWrapper.callback := PFunction "notify" |},
             snd (wrapper (PNum 3) (PFunction "notify") (PFunction "answer")
                    (interp start))))
     = Val (ProcessTask.__init__ 0 (PFunction "answer") (PList [PNum 7]) (PDict [])
              (PFunction "notify") (PNum 3) PNone 0).
Proof.
  assert (Hne : ({["timeout" := PNum 3; "callback" := PFunction "notify"]}
                   : gmap string pyval) <> ∅) by (apply insert_non_empty).
  split; [exact Hne|]. split; [reflexivity|].
  assert (Hnone : is_not_None
    (match ({["timeout" := PNum 3; "callback" := PFunction "notify"]}
              : gmap string pyval) !! "target" with
     | Some v => v
     | None => PNone
     end) = false) by reflexivity.
  pose proof (task_decorator_configures_tasks []
                {["timeout" := PNum 3; "callback" := PFunction "notify"]}
                (interp start) Hne Hnone) as [Hdec Hcall].
  split; [exact Hdec|].
  destruct (Hcall (PFunction "answer") (interp start) eq_refl) as [Hw Hc].
  split; [exact (f_equal fst Hw)|].
  exact (proj1 (Hc 0 [PNum 7] []
                  (snd (wrapper (PNum 3) (PFunction "notify") (PFunction "answer")
                          (interp start))) eq_refl)).
Defined.



(** A call of [task] in a program, from what [task] does. *)
Lemma step_task_effect args (kwargs : gmap string pyval) s :
  match snd (step_task args kwargs s) with
  | Some c =>
      queues (interp (fst (step_task args kwargs s))) = S (queues (interp s))
      /\ threads (interp (fst (step_task args kwargs s)))
         = threads (interp s) ++ [task_of c]
      /\ ProcessTask._queue (task_of c) = queues (interp s)
      /\ ProcessTask._cancelled (task_of c) = false
      /\ ProcessTask.outcome (task_of c) = None
  | None =>
      queues (interp (fst (step_task args kwargs s))) = queues (interp s)
      /\ threads (interp (fst (step_task args kwargs s))) = threads (interp s)
  end.
Proof.
  unfold step_task. pose proof (task_effect args kwargs (interp s)) as H.
  destruct (task args kwargs (interp s)) as [[[self|t|? ?]|e|] it'];
    cbn [fst snd interp task_of].
  - destruct H as (-> & _). split; reflexivity.
  - destruct H as (-> & _ & _ & _ & Hq & Hc & Ho). cbn [queues threads]. auto.
  - destruct H as (-> & _). split; reflexivity.
  - destruct H as (-> & _). split; reflexivity.
  - destruct H as (-> & _). split; reflexivity.
Qed.

(** One call of a program, on the queues and the managers: a task that is
    made has the next queue, and its manager is started; a call that makes
    no task starts no manager (a call of a wrapper that fails has made its
    queue all the same). *)
Lemma step_effect o s :
  match snd (step o s) with
  | Some c =>
      queues (interp (fst (step o s))) = S (queues (interp s))
      /\ threads (interp (fst (step o s))) = threads (interp s) ++ [task_of c]
      /\ ProcessTask._queue (task_of c) = queues (interp s)
      /\ ProcessTask._cancelled (task_of c) = false
      /\ ProcessTask.outcome (task_of c) = None
  | None =>
      queues (interp s) <= queues (interp (fst (step o s)))
      /\ threads (interp (fst (step o s))) = threads (interp s)
  end.
Proof.
  assert (Htask : forall args kwargs,
    match snd (step_task args kwargs s) with
    | Some c =>
        queues (interp (fst (step_task args kwargs s))) = S (queues (interp s))
        /\ threads (interp (fst (step_task args kwargs s)))
           = threads (interp s) ++ [task_of c]
        /\ ProcessTask._queue (task_of c) = queues (interp s)
        /\ ProcessTask._cancelled (task_of c) = false
        /\ ProcessTask.outcome (task_of c) = None
    | None =>
        queues (interp s) <= queues (interp (fst (step_task args kwargs s)))
        /\ threads (interp (fst (step_task args kwargs s))) = threads (interp s)
    end).
  { intros args kwargs. pose proof (step_task_effect args kwargs s) as H.
    destruct (snd (step_task args kwargs s)); [exact H|].
    destruct H as [-> ->]. split; [lia|reflexivity]. }
  destruct o as [args kwargs|timeout callback function|j args kwargs|j instance];
    cbn [step].
  - apply Htask.
  - unfold wrapper. rewrite init_run. cbn. split; [lia|reflexivity].
  - destruct (wrappers s !! j) as [self|]; [|cbn; split; [lia|reflexivity]].
    pose proof (wrapper_call_effect self (interp s) args kwargs) as H.
    destruct (TaskDecoratorWrapper.__call__ args kwargs (self, interp s))
      as [[t|e|] [self' it']]; cbn [fst snd interp task_of].
    + destruct H as (_ & Hq & Ht & _ & _ & Hqt & Hc & Ho). auto.
    + destruct H as (_ & ->). cbn. split; [lia|reflexivity].
    + destruct H as (_ & ->). cbn. split; [lia|reflexivity].
  - destruct (wrappers s !! j) as [self|]; [|cbn; split; [lia|reflexivity]].
    destruct (__get__ instance PNone); apply Htask.
Qed.

Lemma exec_cons o p s :
  exec (o :: p) s
  = match snd (step o s) with
    | Some c => c :: exec p (fst (step o s))
    | None => exec p (fst (step o s))
    end.
Proof. cbn [exec]. destruct (step o s) as [s' [c|]]; reflexivity. Qed.

(** From any state: the queues of the tasks of a program go upwards from
    the next handle, and the managers started are those of its tasks. *)
Lemma exec_queues p : forall s,
  (forall i j qi qj,
     map ProcessTask._queue (map task_of (exec p s)) !! i = Some qi ->
     map ProcessTask._queue (map task_of (exec p s)) !! j = Some qj ->
     i < j -> qi < qj)
  /\ Forall (fun q => queues (interp s) <= q
                      /\ q < queues (interp (final_state p s)))
            (map ProcessTask._queue (map task_of (exec p s)))
  /\ queues (interp s) <= queues (interp (final_state p s))
  /\ threads (interp (final_state p s))
     = threads (interp s) ++ map task_of (exec p s)
  /\ Forall (fun t => ProcessTask._cancelled t = false
                      /\ ProcessTask.outcome t = None)
            (map task_of (exec p s)).
Proof.
  induction p as [|o p IH]; intros s.
  - cbn. rewrite app_nil_r. repeat split; try constructor.
    intros i j qi qj H. rewrite lookup_nil in H. discriminate.
  - rewrite exec_cons. cbn [final_state].
    pose proof (step_effect o s) as Hstep.
    destruct (IH (fst (step o s))) as (IHo & IHb & IHn & IHt & IHf).
    destruct (snd (step o s)) as [c|].
    + destruct Hstep as (Hq & Ht & Hc & Hfl & Hout).
      cbn [map]. rewrite IHt, Ht, Hc, <- app_assoc.
      rewrite Hq in IHb, IHn.
      split; [|split; [|split; [lia|split; [reflexivity|]]]].
      * intros i j qi qj Hi Hj Hlt. destruct j as [|j]; [lia|].
        cbn in Hj. destruct i as [|i].
        -- cbn in Hi. injection Hi as <-.
           pose proof (Forall_lookup_1 _ _ _ _ IHb Hj) as Hb. cbn in Hb. lia.
        -- cbn in Hi. apply (IHo i j); [exact Hi | exact Hj | lia].
      * constructor; [lia|].
        eapply Forall_impl; [exact IHb|]. cbn. intros q Hb. lia.
      * constructor; auto.
    + destruct Hstep as (Hq & Ht). rewrite IHt, Ht.
      split; [exact IHo|]. split; [|split; [lia|split; [reflexivity|exact IHf]]].
      eapply Forall_impl; [exact IHb|]. cbn. intros q Hb. lia.
Qed.

Lemma at_count_snoc s it w i :
  length (counts (interp s)) = length (wrappers s) ->
  counts it = counts (interp s) ++ [0] ->
  at_count {| interp := it; wrappers := wrappers s ++ [w] |} i = at_count s i.
Proof.
  intros Hlen Hc. unfold at_count. cbn [interp]. rewrite Hc.
  destruct (decide (i < length (counts (interp s)))) as [Hlt|Hge].
  - rewrite lookup_app_l by exact Hlt. reflexivity.
  - rewrite lookup_app_r by lia.
    rewrite (lookup_ge_None_2 (counts (interp s)) i) by lia.
    destruct (i - length (counts (interp s))) as [|n]; reflexivity.
Qed.

Lemma own_counters_snoc s it w :
  own_counters s ->
  counts it = counts (interp s) ++ [0] ->
  TaskDecoratorWrapper._counter w = PCount (length (counts (interp s))) ->
  own_counters {| interp := it; wrappers := wrappers s ++ [w] |}.
Proof.
  intros [Hlen Hown] Hc Hw. split; cbn [interp wrappers].
  - rewrite Hc, !length_app, Hlen. reflexivity.
  - intros i self Hi.
    destruct (decide (i < length (wrappers s))) as [Hlt|Hge].
    + rewrite lookup_app_l in Hi by exact Hlt. exact (Hown _ _ Hi).
    + rewrite lookup_app_r in Hi by lia.
      destruct (i - length (wrappers s)) as [|n] eqn:E; [|discriminate].
      cbn in Hi. injection Hi as <-. rewrite Hw, Hlen. f_equal. lia.
Qed.

(** One call of a program that decorates nothing with an attribute
    [_counter], from a state in which every wrapper holds its own count
    object: that stays so; a call of a wrapper that exists makes a task,
    with the number its count object is at, and moves that count object
    alone; a call of [task] with a target makes a task with the number of
    the global counter, and moves that counter alone; any other call makes
    no task and moves nothing. *)
Lemma step_plain o s :
  plain_op o = true ->
  own_counters s ->
  own_counters (fst (step o s))
  /\ length (wrappers (fst (step o s)))
     = (if makes_wrapper o then S (length (wrappers s)) else length (wrappers s))
  /\ match snd (step o s) with
     | Some (ByWrapper j t) =>
         (exists args kw, o = OpCall j args kw)
         /\ j < length (wrappers s)
         /\ ProcessTask.number t = at_count s j
         /\ at_count (fst (step o s)) j = S (at_count s j)
         /\ (forall i, i <> j -> at_count (fst (step o s)) i = at_count s i)
         /\ _task_counter (interp (fst (step o s))) = _task_counter (interp s)
     | Some (ByTarget t) =>
         starts_target o = true
         /\ ProcessTask.number t = _task_counter (interp s)
         /\ _task_counter (interp (fst (step o s))) = S (_task_counter (interp s))
         /\ (forall i, at_count (fst (step o s)) i = at_count s i)
     | None =>
         starts_target o = false
         /\ (forall j args kw, o = OpCall j args kw -> length (wrappers s) <= j)
         /\ (forall i, at_count (fst (step o s)) i = at_count s i)
         /\ _task_counter (interp (fst (step o s))) = _task_counter (interp s)
         /\ queues (interp (fst (step o s))) = queues (interp s)
     end.
Proof.
  intros Hplain Hinv.
  destruct o as [args kwargs|timeout callback function|j args kwargs|j instance];
    cbn [step]; [| | |discriminate].
  - unfold step_task. pose proof (task_effect args kwargs (interp s)) as H.
    destruct (task args kwargs (interp s)) as [[[self|t|? ?]|e|] it'];
      cbn [fst snd interp wrappers].
    + destruct H as (-> & Hst & Hmk & a0 & Ha0 & ->). rewrite Hmk.
      assert (Hc : TaskDecoratorWrapper._counter
                (TaskDecoratorWrapper.update_wrapper
                   {| TaskDecoratorWrapper._counter := PCount (length (counts (interp s)));
                      TaskDecoratorWrapper._function := a0;
                      TaskDecoratorWrapper._ismethod := PBool false;
                      TaskDecoratorWrapper.timeout := PNum 0;
                      TaskDecoratorWrapper.callback := PNone |} a0)
              = PCount (length (counts (interp s)))).
      { unfold TaskDecoratorWrapper.update_wrapper.
        cbn [TaskDecoratorWrapper._counter]. apply updated_without.
        cbn [plain_op] in Hplain. destruct args as [|a rest]; [discriminate|].
        cbn in Ha0. injection Ha0 as ->. exact Hplain. }
      split; [apply own_counters_snoc; [exact Hinv | reflexivity | exact Hc]|].
      split; [rewrite length_app; cbn; lia|].
      split; [exact Hst|]. split; [discriminate|].
      split; [|split; reflexivity].
      intros i. apply at_count_snoc; [exact (proj1 Hinv) | reflexivity].
    + destruct H as (-> & Hst & Hmk & Hn & _). rewrite Hmk.
      split; [exact Hinv|]. split; [reflexivity|].
      split; [exact Hst|]. split; [exact Hn|]. split; [reflexivity|].
      intros i. reflexivity.
    + destruct H as (-> & Hst & Hmk). rewrite Hmk.
      split; [destruct s; exact Hinv|]. split; [reflexivity|].
      split; [exact Hst|]. split; [discriminate|]. repeat split.
    + destruct H as (-> & Hst & Hmk). rewrite Hmk.
      split; [destruct s; exact Hinv|]. split; [reflexivity|].
      split; [exact Hst|]. split; [discriminate|]. repeat split.
    + destruct H as (-> & Hst & Hmk). rewrite Hmk.
      split; [destruct s; exact Hinv|]. split; [reflexivity|].
      split; [exact Hst|]. split; [discriminate|]. repeat split.
  - unfold wrapper. rewrite init_run. cbn [fst snd wrappers makes_wrapper].
    assert (Hc : TaskDecoratorWrapper._counter
              (TaskDecoratorWrapper.update_wrapper
                 {| TaskDecoratorWrapper._counter := PCount (length (counts (interp s)));
                    TaskDecoratorWrapper._function := function;
                    TaskDecoratorWrapper._ismethod := PBool false;
                    TaskDecoratorWrapper.timeout := timeout;
                    TaskDecoratorWrapper.callback := callback |} function)
            = PCount (length (counts (interp s)))).
    { unfold TaskDecoratorWrapper.update_wrapper.
      cbn [TaskDecoratorWrapper._counter]. apply updated_without. exact Hplain. }
    split; [apply own_counters_snoc; [exact Hinv | reflexivity | exact Hc]|].
    split; [rewrite length_app; cbn; lia|].
    split; [reflexivity|]. split; [discriminate|].
    split; [|split; reflexivity].
    intros i. apply at_count_snoc; [exact (proj1 Hinv) | reflexivity].
  - cbn [makes_wrapper]. destruct Hinv as [Hlen Hown].
    destruct (wrappers s !! j) as [self|] eqn:Hj.
    + pose proof (lookup_lt_Some _ _ _ Hj) as Hlt.
      destruct (lookup_lt_is_Some_2 (counts (interp s)) j) as [n Hn]; [lia|].
      rewrite (wrapper_call_run self (interp s) args kwargs j n (Hown _ _ Hj) Hn).
      cbn [fst snd interp wrappers].
      rewrite (list_insert_id _ _ _ Hj).
      split; [|split; [reflexivity|]].
      * split; cbn [interp wrappers counts]; [|exact Hown].
        rewrite length_insert. exact Hlen.
      * split; [eauto|]. split; [exact Hlt|].
        unfold at_count. cbn [interp counts ProcessTask.number ProcessTask.__init__].
        rewrite Hn. split; [reflexivity|]. split.
        -- rewrite list_lookup_insert_eq by lia. reflexivity.
        -- split; [|reflexivity]. intros i Hne.
           rewrite list_lookup_insert_ne by congruence. reflexivity.
    + cbn [fst snd]. split; [split; assumption|]. split; [reflexivity|].
      split; [reflexivity|]. split; [|repeat split].
      intros j' args' kw' [= <- _ _]. apply lookup_ge_None_1. exact Hj.
Qed.

Lemma numbers_of_wrapper_cons i c cs :
  numbers_of_wrapper i (c :: cs)
  = match c with
    | ByWrapper j t =>
        if (i =? j)%nat
        then ProcessTask.number t :: numbers_of_wrapper i cs
        else numbers_of_wrapper i cs
    | ByTarget _ => numbers_of_wrapper i cs
    end.
Proof. destruct c as [j t|t]; [|reflexivity]. cbn. destruct (i =? j)%nat; reflexivity. Qed.

Lemma numbers_of_target_cons c cs :
  numbers_of_target (c :: cs)
  = match c with
    | ByWrapper _ _ => numbers_of_target cs
    | ByTarget t => ProcessTask.number t :: numbers_of_target cs
    end.
Proof. destruct c; reflexivity. Qed.

(** From any state in which every wrapper holds its own count object, in
    a program that decorates nothing with an attribute [_counter]: the
    tasks of a wrapper are numbered upwards from where its count object
    is, one for each of its calls, and those of the keyword-configured
    form from the global counter; and every call of a wrapper that exists
    makes a task, so the queues are used one for each task. *)
Lemma exec_plain p : forall s,
  forallb plain_op p = true ->
  own_counters s ->
  (forall i, numbers_of_wrapper i (exec p s)
             = seq (at_count s i) (calls_of i p (length (wrappers s))))
  /\ numbers_of_target (exec p s)
     = seq (_task_counter (interp s)) (target_calls p)
  /\ queues (interp (final_state p s)) = queues (interp s) + length (exec p s)
  /\ map ProcessTask._queue (map task_of (exec p s))
     = seq (queues (interp s)) (length (exec p s)).
Proof.
  induction p as [|o p IH]; intros s Hp Hinv.
  - cbn. split; [reflexivity|]. split; [reflexivity|]. split; [lia|reflexivity].
  - cbn [forallb] in Hp. apply andb_prop in Hp as [Ho Hp].
    destruct (step_plain o s Ho Hinv) as (Hinv' & Hlen & Hstep).
    destruct (IH (fst (step o s)) Hp Hinv') as (IHw & IHt & IHq & IHs).
    rewrite exec_cons. cbn [final_state calls_of]. unfold target_calls in *.
    cbn [List.filter]. rewrite IHq. rewrite Hlen in IHw.
    pose proof (step_effect o s) as Heff.
    destruct (snd (step o s)) as [[j t|t]|].
    + destruct Hstep as ((args & kw & ->) & Hlt & Hn & Hj & Hother & Hg).
      destruct Heff as (Hq & _ & Hqt & _).
      cbn [starts_target makes_wrapper] in *.
      split; [|split; [rewrite numbers_of_target_cons, IHt, Hg; reflexivity
                      |split; [cbn [length]; lia
                              |cbn [map length seq]; rewrite IHs, Hq, Hqt;
                               reflexivity]]].
      intros i. rewrite numbers_of_wrapper_cons, IHw.
      destruct (Nat.eqb_spec i j) as [->|Hne]; cbn [andb].
      * apply Nat.ltb_lt in Hlt. rewrite Hlt, Hn, Hj. reflexivity.
      * rewrite (Hother i Hne). reflexivity.
    + destruct Hstep as (Hst & Hn & Hg & Hsame). rewrite Hst.
      destruct Heff as (Hq & _ & Hqt & _).
      split; [|split; [rewrite numbers_of_target_cons, IHt, Hn, Hg; reflexivity
                      |split; [cbn [length]; lia
                              |cbn [map length seq]; rewrite IHs, Hq, Hqt;
                               reflexivity]]].
      intros i. rewrite numbers_of_wrapper_cons, IHw, Hsame.
      destruct o; try discriminate. reflexivity.
    + destruct Hstep as (Hst & Hcall & Hsame & Hg & Hq). rewrite Hst.
      split; [|split; [rewrite IHt, Hg; reflexivity
                      |split; [lia | rewrite IHs, Hq; reflexivity]]].
      intros i. rewrite IHw, Hsame.
      destruct o as [| |j args kw|]; try reflexivity.
      pose proof (Hcall j args kw eq_refl) as Hge.
      destruct (Nat.eqb_spec i j) as [->|Hne]; [|reflexivity].
      destruct (Nat.ltb_spec j (length (wrappers s))); [lia|reflexivity].
Qed.

Lemma own_counters_start : own_counters start.
Proof.
  split; [reflexivity|]. intros i self H. cbn in H.
  rewrite lookup_nil in H. discriminate.
Qed.

(** X17.  In every program, each task made, by a wrapper or by the
    keyword-configured form, has a queue of its own: the queues of the
    tasks go strictly upwards in the order the tasks are made, so no two
    tasks share one, and all are queues the program has made.  Each task
    is made fresh, and the managers started by the program are those of
    its tasks, one for each, in that order.  In a program that decorates
    nothing with an attribute [_counter] the queues of the tasks are the
    handles 0, 1, 2, ... and no other queue is made. *)
Theorem program_tasks_own_their_queues p :
  NoDup (map ProcessTask._queue (map task_of (exec p start)))
  /\ (forall i j qi qj,
        map ProcessTask._queue (map task_of (exec p start)) !! i = Some qi ->
        map ProcessTask._queue (map task_of (exec p start)) !! j = Some qj ->
        i < j -> qi < qj)
  /\ Forall (fun q => q < queues (interp (final_state p start)))
            (map ProcessTask._queue (map task_of (exec p start)))
  /\ threads (interp (final_state p start)) = map task_of (exec p start)
  /\ Forall (fun t => ProcessTask._cancelled t = false
                      /\ ProcessTask.outcome t = None)
            (map task_of (exec p start))
  /\ (forallb plain_op p = true ->
      map ProcessTask._queue (map task_of (exec p start))
        = seq 0 (length (exec p start))
      /\ queues (interp (final_state p start)) = length (exec p start)).
Proof.
  destruct (exec_queues p start) as (Ho & Hb & Hn & Ht & Hf).
  assert (Hnd : NoDup (map ProcessTask._queue (map task_of (exec p start)))).
  { apply NoDup_alt. intros i j q Hi Hj.
    destruct (Nat.lt_trichotomy i j) as [Hlt|[Heq|Hgt]]; [|exact Heq|].
    - pose proof (Ho i j q q Hi Hj Hlt). lia.
    - pose proof (Ho j i q q Hj Hi Hgt). lia. }
  split; [exact Hnd|]. split; [exact Ho|].
  split; [eapply Forall_impl; [exact Hb|]; cbn; intros q Hq; lia|].
  split; [exact Ht|]. split; [exact Hf|].
  intros Hplain.
  destruct (exec_plain p start Hplain own_counters_start) as (_ & _ & Hq & Hs).
  split; [exact Hs | exact Hq].
Qed.

(** X17 on a program of two wrappers and the keyword-configured form. *)
Lemma program_tasks_own_their_queues_witness :
  forallb plain_op
    [OpTask [PFunction "answer"] ∅; OpCall 0 [] [];
     OpTask [] {["target" := PFunction "sleep"]}; OpCall 0 [] []] = true
  /\ map ProcessTask._queue (map task_of (exec
        [OpTask [PFunction "answer"] ∅; OpCall 0 [] [];
         OpTask [] {["target" := PFunction "sleep"]}; OpCall 0 [] []] start))
     = [0; 1; 2].
Proof.
  split; [reflexivity|].
  exact (proj1 (proj2 (proj2 (proj2 (proj2 (proj2
           (program_tasks_own_their_queues
              [OpTask [PFunction "answer"] ∅; OpCall 0 [] [];
               OpTask [] {["target" := PFunction "sleep"]}; OpCall 0 [] []])))))
           eq_refl)).
Defined.

(** X21.  In a program that decorates nothing with an attribute
    [_counter] (no function that is decorated has one, and no wrapper is
    bound and decorated again), each wrapper has an id sequence of its
    own: its calls, in order, make the tasks of numbers 0, 1, 2, ..., one
    task for each call, whatever the other wrappers and the
    keyword-configured form do in between; and the tasks of the
    keyword-configured form have the numbers 0, 1, 2, ... of the one
    global counter, one for each call with a target. *)
Theorem plain_program_numbers p :
  forallb plain_op p = true ->
  (forall i, numbers_of_wrapper i (exec p start) = seq 0 (calls_of i p 0))
  /\ numbers_of_target (exec p start) = seq 0 (target_calls p).
Proof.
  intros Hplain.
  destruct (exec_plain p start Hplain own_counters_start) as (Hw & Ht & _).
  split; [exact Hw | exact Ht].
Qed.

(** X21 on a program that interleaves two wrappers and the
    keyword-configured form. *)
Lemma plain_program_numbers_witness :
  forallb plain_op
    [OpTask [PFunction "answer"] ∅; OpTask [PFunction "sleep"] ∅;
     OpCall 0 [] []; OpCall 1 [] []; OpCall 0 [] [];
     OpTask [] {["target" := PFunction "answer"]};
     OpCall 0 [] []; OpTask [] {["target" := PFunction "sleep"]}] = true
  /\ numbers_of_wrapper 0 (exec
        [OpTask [PFunction "answer"] ∅; OpTask [PFunction "sleep"] ∅;
         OpCall 0 [] []; OpCall 1 [] []; OpCall 0 [] [];
         OpTask [] {["target" := PFunction "answer"]};
         OpCall 0 [] []; OpTask [] {["target" := PFunction "sleep"]}] start)
     = [0; 1; 2]
  /\ numbers_of_target (exec
        [OpTask [PFunction "answer"] ∅; OpTask [PFunction "sleep"] ∅;
         OpCall 0 [] []; OpCall 1 [] []; OpCall 0 [] [];
         OpTask [] {["target" := PFunction "answer"]};
         OpCall 0 [] []; OpTask [] {["target" := PFunction "sleep"]}] start)
     = [0; 1].
Proof.
  split; [reflexivity|].
  pose proof (plain_program_numbers
    [OpTask [PFunction "answer"] ∅; OpTask [PFunction "sleep"] ∅;
     OpCall 0 [] []; OpCall 1 [] []; OpCall 0 [] [];
     OpTask [] {["target" := PFunction "answer"]};
     OpCall 0 [] []; OpTask [] {["target" := PFunction "sleep"]}] eq_refl)
    as [Hw Ht].
  split; [exact (Hw 0) | exact Ht].
Defined.

(** X18.  A wrapper reached through an instance is bound to it: its call
    is the call of the wrapper with the instance before the arguments.
    Reached through the class (the instance is [None]) it is the wrapper
    itself.  Both ways draw on the one count object of the wrapper: when
    that is at [n], a call through an instance and then a call through
    the class make the tasks of numbers [n] and [n + 1], and leave it at
    [n + 2]. *)
Theorem descriptor_calls_share_counter
    self it instance owner args kw args' kw' r n :
  is_not_None instance = true ->
  TaskDecoratorWrapper._counter self = PCount r ->
  counts it !! r = Some n ->
  exists t it' t' it'',
    call_descriptor (__get__ instance owner) args kw (self, it)
      = (Val t, (self, it'))
    /\ call_descriptor (__get__ PNone owner) args' kw' (self, it')
       = (Val t', (self, it''))
    /\ ProcessTask._args t = PList (instance :: args)
    /\ ProcessTask._args t' = PList args'
    /\ ProcessTask.number t = n
    /\ ProcessTask.number t' = S n
    /\ ProcessTask._function t = TaskDecoratorWrapper._function self
    /\ ProcessTask._function t' = TaskDecoratorWrapper._function self
    /\ counts it'' !! r = Some (S (S n))
    /\ threads it'' = threads it ++ [t; t'].
Proof.
  intros Hinst Hc Hn. unfold __get__. rewrite Hinst.
  cbn [is_not_None call_descriptor].
  pose proof (lookup_lt_Some _ _ _ Hn) as Hlt.
  rewrite (wrapper_call_run self it (instance :: args) kw r n Hc Hn).
  eexists _, _, _, _. split; [reflexivity|]. split.
  { apply (wrapper_call_run self _ args' kw' r (S n) Hc).
    cbn [counts]. rewrite list_lookup_insert_eq by lia. reflexivity. }
  cbn [counts threads ProcessTask._args ProcessTask.number ProcessTask._function
       ProcessTask.__init__].
  rewrite <- app_assoc.
  rewrite list_lookup_insert_eq by (rewrite length_insert; lia).
  repeat split.
Qed.

(** X18 on an instance, an object of the class Job. *)
Lemma descriptor_calls_share_counter_witness :
  is_not_None (PObject "Job" true) = true
  /\ exists t it' t' it'',
       call_descriptor (__get__ (PObject "Job" true) (PObject "type" true)) [PNum 1] []
         ({| TaskDecoratorWrapper._counter := PCount 0;
             TaskDecoratorWrapper._function := PFunction "answer";
             TaskDecoratorWrapper._ismethod := PBool false;
             TaskDecoratorWrapper.timeout := PNum 0;
             TaskDecoratorWrapper.callback := PNone |},
          {| _task_counter := 0; counts := [0]; queues := 0; threads := [] |})
         = (Val t, ({| TaskDecoratorWrapper._counter := PCount 0;
                       TaskDecoratorWrapper._function := PFunction "answer";
                       TaskDecoratorWrapper._ismethod := PBool false;
                       TaskDecoratorWrapper.timeout := PNum 0;
                       TaskDecoratorWrapper.callback := PNone |}, it'))
       /\ call_descriptor (__get__ PNone (PObject "type" true)) [PNum 2] []
            ({| TaskDecoratorWrapper._counter := PCount 0;
                TaskDecoratorWrapper._function := PFunction "answer";
                TaskDecoratorWrapper._ismethod := PBool false;
                TaskDecoratorWrapper.timeout := PNum 0;
                TaskDecoratorWrapper.callback := PNone |}, it')
          = (Val t', ({| TaskDecoratorWrapper._counter := PCount 0;
                         TaskDecoratorWrapper._function := PFunction "answer";
                         TaskDecoratorWrapper._ismethod := PBool false;
                         TaskDecoratorWrapper.timeout := PNum 0;
                         TaskDecoratorWrapper.callback := PNone |}, it''))
       /\ ProcessTask._args t = PList [PObject "Job" true; PNum 1]
       /\ ProcessTask._args t' = PList [PNum 2]
       /\ ProcessTask.number t = 0
       /\ ProcessTask.number t' = 1.
Proof.
  split; [reflexivity|].
  destruct (descriptor_calls_share_counter
              {| TaskDecoratorWrapper._counter := PCount 0;
                 TaskDecoratorWrapper._function := PFunction "answer";
                 TaskDecoratorWrapper._ismethod := PBool false;
                 TaskDecoratorWrapper.timeout := PNum 0;
                 TaskDecoratorWrapper.callback := PNone |}
              {| _task_counter := 0; counts := [0]; queues := 0; threads := [] |}
              (PObject "Job" true) (PObject "type" true) [PNum 1] [] [PNum 2] []
              0 0 eq_refl eq_refl eq_refl)
    as (t & it' & t' & it'' & H1 & H2 & H3 & H4 & H5 & H6 & _).
  exists t, it', t', it''.
  split; [exact H1|]. split; [exact H2|]. split; [exact H3|].
  split; [exact H4|]. split; [exact H5|exact H6].
Defined.



(** ** Cancellation after the deadline *)

(** X20.  A cancellation that comes after the deadline changes nothing:
    for a fresh task with the timeout [q > 0] whose worker puts nothing
    within [q] seconds, a TaskCancelled item put at a time [c > q] is not
    received, and the outcome is the TimeoutError that carries [q]. *)
Theorem manager_cancel_after_deadline w task q c :
  ProcessTask.timeout task = PNum q ->
  (0 < q)%Q ->
  ProcessTask.outcome task = None ->
  (q < c)%Q ->
  match call_end (py_call w (spawned_function w task) (ProcessTask._args task)
                    (ProcessTask._kwargs task)) with
  | Some d => (q < d)%Q
  | None => True
  end ->
  ProcessTask.outcome
    (the_task (snd (run_manager w [(c, PExc (TaskCancelled "Task Cancelled"))] task)))
  = Some (PExc (TimeoutError "Task Timeout" (PNum q))).
Proof.
  intros Hq Hpos Hfresh Hqc Hlate.
  pose proof (resolved_timeout_number _ _ Hq) as Ht.
  apply Qlt_bool_true in Hpos. rewrite Hpos in Ht.
  apply finalization_fresh_outcome; [exact Hfresh|].
  rewrite <- Hq. apply (finalization_Empty _ _ _ Empty); [|reflexivity].
  unfold awaited. rewrite Ht. unfold queue_get. cbn [py_seconds].
  destruct (earliest (awaited_channel w _ task)) as [[a x]|] eqn:E; [|reflexivity].
  apply earliest_In in E. unfold awaited_channel in E. cbn [app] in E.
  assert (Ha : (q < a)%Q).
  { destruct E as [[= <- <-] | E]; [exact Hqc|].
    apply worker_puts_time in E. rewrite E in Hlate. exact Hlate. }
  destruct (Qle_bool a q) eqn:Hle; [|reflexivity].
  apply Qle_bool_iff in Hle. exfalso. exact (Qlt_not_le _ _ Ha Hle).
Qed.

(** X20 on the target that sleeps 5 seconds, with the timeout 1/2,
    cancelled after 1 second. *)
Lemma manager_cancel_after_deadline_witness :
  ProcessTask.timeout (example_task "sleep" PNone (PNum (1 # 2))) = PNum (1 # 2)
  /\ (0 < 1 # 2)%Q
  /\ ProcessTask.outcome (example_task "sleep" PNone (PNum (1 # 2))) = None
  /\ (1 # 2 < 1)%Q
  /\ ProcessTask.outcome
       (the_task (snd (run_manager posix_world
          [(1%Q, PExc (TaskCancelled "Task Cancelled"))]
          (example_task "sleep" PNone (PNum (1 # 2))))))
     = Some (PExc (TimeoutError "Task Timeout" (PNum (1 # 2)))).
Proof.
  split; [reflexivity|]. split; [reflexivity|]. split; [reflexivity|].
  split; [reflexivity|].
  exact (manager_cancel_after_deadline posix_world
           (example_task "sleep" PNone (PNum (1 # 2))) (1 # 2) 1
           eq_refl eq_refl eq_refl eq_refl eq_refl).
Defined.

(** ** The deadline *)

(** X22.  For a task whose configured timeout is the number [q]: the
    local [timeout] of the manager is [q] itself when [q > 0] and [None]
    otherwise, and the wait on the channel is [queue.get] with that value.
    When [q] is not above 0 the wait never ends with [Empty] (nor with any
    other exception), and a fresh task whose worker is spawned with a
    function that returns [v] on the args and kwargs of the task, after
    any running time [d], is finalized with the result [v] (the put of [v]
    succeeding, nobody else putting).  The function the worker is spawned
    with is the target of the task where [os.name] is not ['nt'], and the
    marshaled function where it is. *)
Theorem manager_effective_deadline w task q :
  ProcessTask.timeout task = PNum q ->
  resolved_timeout task = Val (if Qlt_bool 0 q then PNum q else PNone)
  /\ (forall others,
        In (EvGet (ProcessTask._queue task) (if Qlt_bool 0 q then PNum q else PNone))
           (trace (snd (run_manager w others task))))
  /\ spawned_function w task
     = (if String.eqb (os_name w) "nt"
        then fst (dump_function w (ProcessTask._function task)
                                  (ProcessTask._args task))
        else ProcessTask._function task)
  /\ (Qlt_bool 0 q = false ->
      (forall others e, awaited w others task <> Exc e)
      /\ (forall v d,
            ProcessTask.outcome task = None ->
            py_call w (spawned_function w task) (ProcessTask._args task)
                    (ProcessTask._kwargs task) = Returns v d ->
            put_raises w v = None ->
            ProcessTask.outcome (the_task (snd (run_manager w [] task)))
              = Some v)).
Proof.
  intros Hq. pose proof (resolved_timeout_number _ _ Hq) as Ht.
  split; [exact Ht|]. split; [|split; [reflexivity|]].
  - intros others. destruct (run_manager_prelude w others task _ Ht) as [rest ->].
    apply in_or_app. left. unfold prelude. apply in_or_app. right.
    right. left. reflexivity.
  - intros Hle. rewrite Hle in Ht. split.
    + intros others e. unfold awaited. rewrite Ht.
      apply queue_get_None_not_Empty.
    + intros v d Hfresh Hcall Hput.
      assert (Hfin : finalization w [] task = Some v).
      { apply finalization_item. unfold awaited, awaited_channel. rewrite Ht.
        unfold worker_puts. rewrite Hcall.
        rewrite (worker_returns_run _ _ _ _ _ _ Hcall Hput). reflexivity. }
      destruct (run_manager_past_wait _ _ _ _ Hfin) as (pre & post & _ & -> & _).
      apply outcome_of_set_fresh, Hfresh.
Qed.

(** X22 on a task with timeout 0 whose target returns 42 after a million
    seconds, off ['nt'], and on a task with timeout 1/2. *)
Lemma manager_effective_deadline_witness :
  (ProcessTask.timeout (example_task "slow_answer" PNone (PNum 0)) = PNum 0
   /\ spawned_function posix_world (example_task "slow_answer" PNone (PNum 0))
      = PFunction "slow_answer"
   /\ py_call posix_world (PFunction "slow_answer") (PList []) (PDict [])
      = Returns (PNum 42) 1000000
   /\ ProcessTask.outcome (the_task (snd (run_manager posix_world []
         (example_task "slow_answer" PNone (PNum 0)))))
      = Some (PNum 42))
  /\ (ProcessTask.timeout (example_task "answer" PNone (PNum (1 # 2))) = PNum (1 # 2)
      /\ resolved_timeout (example_task "answer" PNone (PNum (1 # 2)))
         = Val (PNum (1 # 2))).
Proof.
  split.
  - split; [reflexivity|]. split; [reflexivity|]. split; [reflexivity|].
    exact (proj2 (proj2 (proj2 (proj2 (manager_effective_deadline posix_world
             (example_task "slow_answer" PNone (PNum 0)) 0 eq_refl))) eq_refl)
             (PNum 42) 1000000%Q eq_refl eq_refl eq_refl).
  - split; [reflexivity|].
    exact (proj1 (manager_effective_deadline posix_world
             (example_task "answer" PNone (PNum (1 # 2))) (1 # 2) eq_refl)).
Defined.
